(** * proofpoint_client: token lifecycle, request dispatch and payload assembly

    A shallow embedding of [proofpoint_client/client.py], [models.py] and
    [exceptions.py].  Python values are a small inductive type, dicts are
    association lists with Python's insertion semantics, the client object is
    a record threaded through a state/trace/exception monad, and the two
    external collaborators (the wall clock and the HTTP transport) are
    explicit inputs of every operation. *)

From Stdlib Require Import ZArith List String Ascii Bool Lia.
Import ListNotations.
Open Scope string_scope.
Open Scope list_scope.
Open Scope Z_scope.

(* ================================================================= *)
(** ** Python values *)

(** The values that flow through the client: JSON documents decoded by
    [response.json()], payloads handed to the transport as [json=...], and
    dataclass instances ([PData], which carries the instance's [__dict__] in
    field order).  JSON numbers are integers here; floating point numbers are
    outside the embedding. *)
Module Py.

#[warnings="-register-all"]
Inductive pyval : Type :=
| PNone
| PBool (b : bool)
| PInt (n : Z)
| PStr (s : string)
| PBytes (b : list Byte.byte)
| PList (l : list pyval)
| PDict (d : list (string * pyval))
| PData (cls : string) (fields : list (string * pyval)).

Definition dict := list (string * pyval).

(** [v is None] *)
Definition is_none (v : pyval) : bool :=
  match v with PNone => true | _ => false end.

(** Python truthiness, as used by [if x:] and [not x].  A dataclass instance
    defines neither [__bool__] nor [__len__], so it is always true. *)
Definition truthy (v : pyval) : bool :=
  match v with
  | PNone => false
  | PBool b => b
  | PInt n => negb (n =? 0)
  | PStr s => negb (String.eqb s "")
  | PBytes b => match b with [] => false | _ => true end
  | PList l => match l with [] => false | _ => true end
  | PDict d => match d with [] => false | _ => true end
  | PData _ _ => true
  end.

(** [d.get(k)]: [None] of the option type stands for a missing key. *)
Fixpoint dict_get (d : dict) (k : string) : option pyval :=
  match d with
  | [] => None
  | (k', v) :: t => if String.eqb k' k then Some v else dict_get t k
  end.

(** [d[k] = v]: an existing key keeps its position and takes the new value,
    a new key is appended. *)
Fixpoint dict_set (d : dict) (k : string) (v : pyval) : dict :=
  match d with
  | [] => [(k, v)]
  | (k', v') :: t =>
      if String.eqb k' k then (k', v) :: t else (k', v') :: dict_set t k v
  end.

(** [{k: v for k, v in items}] *)
Definition dict_of_items (items : list (string * pyval)) : dict :=
  fold_left (fun d kv => dict_set d (fst kv) (snd kv)) items [].

Definition keys (d : dict) : list string := map fst d.

Definition has_key (d : dict) (k : string) : bool :=
  match dict_get d k with Some _ => true | None => false end.

(** [d.get(k, default)] *)
Definition dict_get_default (d : dict) (k : string) (default : pyval) : pyval :=
  match dict_get d k with Some v => v | None => default end.

End Py.
Import Py.

(* ================================================================= *)
(** ** client.py: [asdict_factory] *)

(** The inner [convert_value]: lists are converted element-wise, dataclass
    instances become dicts of their non-[None] fields, everything else is
    returned as it is. *)
Fixpoint convert_value (obj : pyval) : pyval :=
  match obj with
  | PList l => PList (map convert_value l)
  | PData _ fields =>
      PDict (dict_of_items
        ((fix items (l : list (string * pyval)) : list (string * pyval) :=
            match l with
            | [] => []
            | (k, v) :: t =>
                if is_none v then items t else (k, convert_value v) :: items t
            end) fields))
  | _ => obj
  end.

(** The pairs that the comprehension
    [{k: convert_value(v) for k, v in data if v is not None}] inserts. *)
Definition kept_items (data : list (string * pyval)) : list (string * pyval) :=
  map (fun kv => (fst kv, convert_value (snd kv)))
      (filter (fun kv => negb (is_none (snd kv))) data).

Definition asdict_factory (data : list (string * pyval)) : dict :=
  dict_of_items (kept_items data).

(* ================================================================= *)
(** ** models.py *)

Record SortParam := {
  colId : string;
  sort : string
}.

Record TimeRangeFilter := {
  start : string;
  end_ : string
}.

Record IncidentFilters := {
  time_range_filter : option TimeRangeFilter;
  incident_id_filters : option (list string);
  other_filters : option (list string);
  priority_filters : option (list string);
  source_filters : option (list string);
  disposition_filters : option (list string);
  verdict_filters : option (list string);
  confidence_filters : option (list string)
}.

(** [MessageFilters(IncidentFilters)]: the inherited fields come first. *)
Record MessageFilters := {
  incident_part : IncidentFilters;
  message_id_filters : option (list string);
  recipient_address_filters : option (list string);
  sender_address_filters : option (list string);
  subject_filters : option (list string);
  status_filters : option (list string);
  quarantine_filters : option (list string);
  tap_threat_filters : option (list string);
  tap_threat_type_filters : option (list string)
}.

(** The instances as Python objects. *)
Definition py_opt {A} (f : A -> pyval) (o : option A) : pyval :=
  match o with Some a => f a | None => PNone end.

Definition py_strs (l : list string) : pyval := PList (map PStr l).

Definition SortParam_dict (p : SortParam) : dict :=
  [("colId", PStr (colId p)); ("sort", PStr (sort p))].

Definition TimeRangeFilter_dict (t : TimeRangeFilter) : dict :=
  [("start", PStr (start t)); ("end", PStr (end_ t))].

Definition py_TimeRangeFilter (t : TimeRangeFilter) : pyval :=
  PData "TimeRangeFilter" (TimeRangeFilter_dict t).

(** [filters.__dict__.items()] *)
Definition IncidentFilters_items (f : IncidentFilters) : list (string * pyval) :=
  [ ("time_range_filter", py_opt py_TimeRangeFilter (time_range_filter f));
    ("incident_id_filters", py_opt py_strs (incident_id_filters f));
    ("other_filters", py_opt py_strs (other_filters f));
    ("priority_filters", py_opt py_strs (priority_filters f));
    ("source_filters", py_opt py_strs (source_filters f));
    ("disposition_filters", py_opt py_strs (disposition_filters f));
    ("verdict_filters", py_opt py_strs (verdict_filters f));
    ("confidence_filters", py_opt py_strs (confidence_filters f)) ].

Definition MessageFilters_items (m : MessageFilters) : list (string * pyval) :=
  IncidentFilters_items (incident_part m) ++
  [ ("message_id_filters", py_opt py_strs (message_id_filters m));
    ("recipient_address_filters", py_opt py_strs (recipient_address_filters m));
    ("sender_address_filters", py_opt py_strs (sender_address_filters m));
    ("subject_filters", py_opt py_strs (subject_filters m));
    ("status_filters", py_opt py_strs (status_filters m));
    ("quarantine_filters", py_opt py_strs (quarantine_filters m));
    ("tap_threat_filters", py_opt py_strs (tap_threat_filters m));
    ("tap_threat_type_filters", py_opt py_strs (tap_threat_type_filters m)) ].

(** The argument of [search_incidents], [get_incident_count] and
    [search_messages]: either class of filter object. *)
Inductive Filters :=
| OfIncident (f : IncidentFilters)
| OfMessage (m : MessageFilters).

Definition Filters_items (f : Filters) : list (string * pyval) :=
  match f with
  | OfIncident f => IncidentFilters_items f
  | OfMessage m => MessageFilters_items m
  end.

Definition no_incident_filters : IncidentFilters :=
  {| time_range_filter := None; incident_id_filters := None;
     other_filters := None; priority_filters := None;
     source_filters := None; disposition_filters := None;
     verdict_filters := None; confidence_filters := None |}.

(* ================================================================= *)
(** ** The standard library's [datetime] *)

(** A [datetime] is its number of microseconds since [datetime.min]
    (0001-01-01 00:00:00); a [timedelta] is a number of microseconds.  Both
    constructors used by the client raise [OverflowError] outside their range,
    which is [None] here. *)
Module datetime.

Definition datetime := Z.
Definition timedelta := Z.

Definition max : datetime := 3652059 * 86400 * 1000000 - 1.

Definition in_range (t : Z) : bool := (0 <=? t) && (t <=? max).

(** [timedelta(seconds=s)] for an integer [s]: at most 999999999 days either
    way. *)
Definition timedelta_seconds (s : Z) : option timedelta :=
  if (-999999999 <=? s / 86400) && (s / 86400 <=? 999999999)
  then Some (s * 1000000) else None.

(** [t + d] *)
Definition add (t : datetime) (d : timedelta) : option datetime :=
  if in_range (t + d) then Some (t + d) else None.

(** [t1 >= t2] *)
Definition ge (t1 t2 : datetime) : bool := t2 <=? t1.

End datetime.

(* ================================================================= *)
(** ** exceptions.py *)

(** A formatted string ([f"...{v}..."]) is kept as its parts, so that the
    embedding does not have to fix [str(v)] for every value. *)
Inductive fpart :=
| Lit (s : string)
| Fmt (v : pyval).

Module exceptions.

(** The four classes; the last three derive from the first and add
    nothing. *)
Inductive ExceptionClass :=
| ProofpointApiException
| ProofpointApiAuthError
| ProofpointApiBadRequestError
| ProofpointApiRateLimitError.

(** An instance: its class and the arguments of [__init__]
    ([status_code] and [response_text] default to [None]). *)
Record ApiError := {
  cls : ExceptionClass;
  message : list fpart;
  status_code : option Z;
  response_text : option string
}.

(** The string passed to [Exception.__init__]. *)
Definition full_message (e : ApiError) : list fpart :=
  [Lit "["; Fmt (py_opt PInt (status_code e)); Lit "] "] ++ message e ++
  match response_text e with
  | Some t => if truthy (PStr t) then [Lit "
Response: "; Lit t] else []
  | None => []
  end.

End exceptions.
Import exceptions.

(** Every exception that the modelled code can raise towards its caller. *)
Inductive PyExn :=
| Api (e : ApiError)
| AttributeError
| KeyError (k : string)
| TypeError
| OverflowError.

Definition result (A : Type) : Type := (PyExn + A)%type.

(* ================================================================= *)
(** ** The transport ([requests]) *)

Module requests.

(** What the client reads from a [requests.Response]: the status, the raw
    body [content], the body decoded with the response's encoding, and what
    [json()] does: [inr v] returns the document [v], [inl e] raises a
    [requests.exceptions.JSONDecodeError] with [str(e) = e], which is both a
    [ValueError] and a [RequestException] (requests 2.27 and later). *)
Record Response := {
  status_code : Z;
  content : list Byte.byte;
  decoded : string;
  json : string + pyval
}.

(** [response.text]: the empty string for an empty body, the decoded body
    otherwise. *)
Definition text (r : Response) : string :=
  match content r with [] => "" | _ => decoded r end.

(** The outcome of one transport call: a response, or a
    [requests.exceptions.RequestException] [e] given by [str(e)]. *)
Inductive outcome :=
| Responded (r : Response)
| Raised (e : string).

End requests.

(** The calls that reach the transport, in order: [requests.post] to the
    token endpoint with its form data, and [session.request] with the
    [Authorization] header and the [params] / [json] keyword arguments. *)
Inductive Event :=
| TokenPost (url : string) (data : dict)
| SessionRequest (method url : string) (authorization : list fpart)
    (params json : option pyval).

Definition is_token_post (e : Event) : bool :=
  match e with TokenPost _ _ => true | _ => false end.

Definition token_posts (evs : list Event) : nat :=
  List.length (filter is_token_post evs).

(* ================================================================= *)
(** ** client.py: the client object *)

Record ProofpointApiClient := {
  base_url : string;
  token_url : string;
  client_id : string;
  client_secret : string;
  _access_token : pyval;
  _token_expiry : option datetime.datetime
}.

Definition set_access_token (v : pyval) (self : ProofpointApiClient) :=
  {| base_url := base_url self; token_url := token_url self;
     client_id := client_id self; client_secret := client_secret self;
     _access_token := v; _token_expiry := _token_expiry self |}.

Definition set_token_expiry (t : option datetime.datetime)
    (self : ProofpointApiClient) :=
  {| base_url := base_url self; token_url := token_url self;
     client_id := client_id self; client_secret := client_secret self;
     _access_token := _access_token self; _token_expiry := t |}.

(** A method of the client: it reads and updates [self], calls the
    transport, and returns or raises. *)
Definition M (A : Type) : Type :=
  ProofpointApiClient -> ProofpointApiClient * list Event * result A.

Definition ret {A} (a : A) : M A := fun self => (self, [], inr a).

Definition raise {A} (e : PyExn) : M A := fun self => (self, [], inl e).

Definition bind {A B} (m : M A) (k : A -> M B) : M B :=
  fun self =>
    match m self with
    | (self1, evs, inl e) => (self1, evs, inl e)
    | (self1, evs, inr a) =>
        match k a self1 with
        | (self2, evs', r) => (self2, evs ++ evs', r)
        end
    end.

Definition get_self : M ProofpointApiClient := fun self => (self, [], inr self).

Definition update (f : ProofpointApiClient -> ProofpointApiClient) : M unit :=
  fun self => (f self, [], inr tt).

Definition call (e : Event) : M unit := fun self => (self, [e], inr tt).

Definition lift {A} (r : result A) : M A := fun self => (self, [], r).

Notation "x <- m ;; k" := (bind m (fun x => k))
  (at level 61, m at next level, right associativity).
Notation "m ;; k" := (bind m (fun _ => k))
  (at level 61, right associativity).

Definition state_of {A} (o : ProofpointApiClient * list Event * result A) :=
  fst (fst o).
Definition events_of {A} (o : ProofpointApiClient * list Event * result A) :=
  snd (fst o).
Definition result_of {A} (o : ProofpointApiClient * list Event * result A) :=
  snd o.

Definition succeeded {A} (r : result A) : bool :=
  match r with inr _ => true | inl _ => false end.

(** [ProofpointApiException(message, status_code, response_text)] and its
    subclasses. *)
Definition new_error (c : ExceptionClass) (msg : list fpart)
    (status : option Z) (body : option string) : PyExn :=
  Api {| cls := c; message := msg; exceptions.status_code := status;
         response_text := body |}.

(** [v[k]] for a string key [k]. *)
Definition subscript (v : pyval) (k : string) : result pyval :=
  match v with
  | PDict d => match dict_get d k with
               | Some x => inr x
               | None => inl (KeyError k)
               end
  | _ => inl TypeError
  end.

(** [v.get(k, default)]: only a dict has the method. *)
Definition py_get (v : pyval) (k : string) (default : pyval) : result pyval :=
  match v with
  | PDict d => inr (dict_get_default d k default)
  | _ => inl AttributeError
  end.

(** [v - n] for an integer [n] ([bool] is a subclass of [int]). *)
Definition py_sub (v : pyval) (n : Z) : result Z :=
  match v with
  | PInt a => inr (a - n)
  | PBool b => inr (Z.b2z b - n)
  | _ => inl TypeError
  end.

Definition or_overflow {A} (o : option A) : result A :=
  match o with Some a => inr a | None => inl OverflowError end.

Definition token_form (self : ProofpointApiClient) : dict :=
  [ ("grant_type", PStr "client_credentials");
    ("client_id", PStr (client_id self));
    ("client_secret", PStr (client_secret self)) ].

(** [_refresh_token].  [post] is what [requests.post] does and [utcnow] what
    [datetime.utcnow()] returns once the response is decoded. *)
Definition _refresh_token (post : requests.outcome)
    (utcnow : datetime.datetime) : M unit :=
  self <- get_self ;;
  call (TokenPost (token_url self) (token_form self)) ;;
  match post with
  | requests.Raised e =>
      raise (new_error ProofpointApiException
               [Lit "Failed to obtain access token: "; Lit e] None None)
  | requests.Responded response =>
      if negb (requests.status_code response =? 200) then
        raise (new_error ProofpointApiAuthError
                 [Lit "Failed to obtain access token"]
                 (Some (requests.status_code response))
                 (Some (requests.text response)))
      else
        match requests.json response with
        | inl e =>
            raise (new_error ProofpointApiException
                     [Lit "Failed to obtain access token: "; Lit e] None None)
        | inr token_data =>
            access_token <- lift (subscript token_data "access_token") ;;
            update (set_access_token access_token) ;;
            expires_in <- lift (py_get token_data "expires_in" (PInt 3600)) ;;
            seconds <- lift (py_sub expires_in 300) ;;
            delta <- lift (or_overflow (datetime.timedelta_seconds seconds)) ;;
            expiry <- lift (or_overflow (datetime.add utcnow delta)) ;;
            update (set_token_expiry (Some expiry))
        end
  end.

Definition default_base_url := "https://threatprotection-api.proofpoint.com".
Definition default_token_url := "https://auth.proofpoint.com/v1/token".

(** [__init__]: the new object when the first token fetch returns, the
    exception otherwise. *)
Definition __init__ (client_id client_secret base_url token_url : string)
    (post : requests.outcome) (utcnow : datetime.datetime)
  : list Event * result ProofpointApiClient :=
  let self := {| base_url := base_url; token_url := token_url;
                 client_id := client_id; client_secret := client_secret;
                 _access_token := PNone; _token_expiry := None |} in
  match _refresh_token post utcnow self with
  | (self1, evs, inr _) => (evs, inr self1)
  | (_, evs, inl e) => (evs, inl e)
  end.

(** What one API call meets outside the client: the clock read by
    [_ensure_valid_token], the token endpoint and the clock read by
    [_refresh_token] (both used only when a refresh is made), and the API
    endpoint. *)
Record World := {
  utcnow_check : datetime.datetime;
  token_endpoint : requests.outcome;
  utcnow_refresh : datetime.datetime;
  api_endpoint : requests.outcome
}.

(** Truthiness of [self._token_expiry]: a [datetime] is always true, [None]
    is false. *)
Definition expiry_truthy (t : option datetime.datetime) : bool :=
  match t with Some _ => true | None => false end.

Definition _ensure_valid_token (w : World) : M unit :=
  self <- get_self ;;
  if negb (truthy (_access_token self))
     || negb (expiry_truthy (_token_expiry self))
  then _refresh_token (token_endpoint w) (utcnow_refresh w)
  else
    match _token_expiry self with
    | Some expiry =>
        if datetime.ge (utcnow_check w) expiry
        then _refresh_token (token_endpoint w) (utcnow_refresh w)
        else ret tt
    | None => ret tt
    end.

(** [_handle_error]: every path ends in a [raise]; the exception raised.
    Only a [ValueError] from [response.json()] is handled; the [.get] on the
    decoded document is inside the [try] too, and its [AttributeError] is
    not. *)
Definition _handle_error (response : requests.Response) : PyExn :=
  let message :=
    match requests.json response with
    | inr error_data =>
        py_get error_data "errorMessage" (PStr (requests.text response))
    | inl _ => inr (PStr (requests.text response))
    end in
  match message with
  | inl e => e
  | inr message =>
      let status := requests.status_code response in
      let body := requests.text response in
      if status =? 400 then
        new_error ProofpointApiBadRequestError [Fmt message]
          (Some status) (Some body)
      else if (status =? 401) || (status =? 403) then
        new_error ProofpointApiAuthError [Fmt message]
          (Some status) (Some body)
      else if status =? 429 then
        new_error ProofpointApiRateLimitError [Fmt message]
          (Some status) (Some body)
      else
        new_error ProofpointApiException
          [Lit "An unknown error occurred: "; Fmt message]
          (Some status) (Some body)
  end.

(** The keyword arguments that the endpoint methods pass on to
    [session.request].  None of them passes [headers], so the header dict
    that [_request] pops from [kwargs] starts empty and holds the
    [Authorization] header only. *)
Record kwargs := {
  kw_params : option pyval;
  kw_json : option pyval
}.

Definition no_kwargs : kwargs := {| kw_params := None; kw_json := None |}.
Definition json_kwargs (payload : dict) : kwargs :=
  {| kw_params := None; kw_json := Some (PDict payload) |}.

Definition _request (method endpoint : string) (return_json : bool)
    (kw : kwargs) (w : World) : M pyval :=
  _ensure_valid_token w ;;
  self <- get_self ;;
  let url := (base_url self ++ endpoint)%string in
  let authorization := [Lit "Bearer "; Fmt (_access_token self)] in
  call (SessionRequest method url authorization (kw_params kw) (kw_json kw)) ;;
  match api_endpoint w with
  | requests.Raised e =>
      raise (new_error ProofpointApiException
               [Lit "Request failed: "; Lit e] None None)
  | requests.Responded response =>
      if (400 <=? requests.status_code response)
         && (requests.status_code response <? 600)
      then raise (_handle_error response)
      else if return_json then
        if truthy (PStr (requests.text response)) then
          match requests.json response with
          | inr v => ret v
          | inl e =>
              raise (new_error ProofpointApiException
                       [Lit "Request failed: "; Lit e] None None)
          end
        else ret (PDict [])
      else ret (PBytes (requests.content response))
  end.

(* ================================================================= *)
(** ** client.py: endpoint methods *)

Definition py_Filters (f : Filters) : pyval :=
  match f with
  | OfIncident _ => PData "IncidentFilters" (Filters_items f)
  | OfMessage _ => PData "MessageFilters" (Filters_items f)
  end.

Definition py_sort_params (l : list SortParam) : pyval :=
  PList (map (fun p => PData "SortParam" (SortParam_dict p)) l).

(** [[p.__dict__ for p in sort_params]] *)
Definition sort_dicts (l : list SortParam) : pyval :=
  PList (map (fun p => PDict (SortParam_dict p)) l).

(** The [payload] of [search_incidents] and [search_messages] at their
    [return]. *)
Definition search_payload (filters : option Filters) (start_row end_row : Z)
    (sort_params : option (list SortParam)) : dict :=
  let payload := [("startRow", PInt start_row); ("endRow", PInt end_row)] in
  let payload :=
    match filters with
    | Some f =>
        if truthy (py_Filters f)
        then dict_set payload "filters" (PDict (asdict_factory (Filters_items f)))
        else payload
    | None => payload
    end in
  match sort_params with
  | Some l =>
      if truthy (py_sort_params l)
      then dict_set payload "sortParams" (sort_dicts l)
      else payload
  | None => payload
  end.

Definition search_incidents (filters : option Filters) (start_row end_row : Z)
    (sort_params : option (list SortParam)) : World -> M pyval :=
  _request "POST" "/api/v1/tric/incidents" true
    (json_kwargs (search_payload filters start_row end_row sort_params)).

Definition count_payload (filters : Filters) : dict :=
  [("filters", PDict (asdict_factory (Filters_items filters)))].

Definition get_incident_count (filters : Filters) : World -> M pyval :=
  _request "POST" "/api/v1/tric/incidents/count" true
    (json_kwargs (count_payload filters)).

Definition search_messages (filters : option Filters) (start_row end_row : Z)
    (sort_params : option (list SortParam)) : World -> M pyval :=
  _request "POST" "/api/v1/tric/messages" true
    (json_kwargs (search_payload filters start_row end_row sort_params)).

(** The [message] dict of [upload_message]. *)
Definition upload_message_dict (rfc_message_id : string)
    (recipient_addresses : list string)
    (sender subject disposition : option string) : dict :=
  let message := [ ("rfcMessageId", PStr rfc_message_id);
                   ("recipient_addresses", py_strs recipient_addresses) ] in
  let message :=
    if truthy (py_opt PStr sender)
    then dict_set message "sender" (py_opt PStr sender) else message in
  let message :=
    if truthy (py_opt PStr subject)
    then dict_set message "subject" (py_opt PStr subject) else message in
  if truthy (py_opt PStr disposition)
  then dict_set message "disposition" (py_opt PStr disposition) else message.

Definition upload_message_payload (incident_id rfc_message_id : string)
    (recipient_addresses : list string)
    (sender subject disposition : option string) : dict :=
  [ ("incident_id", PStr incident_id);
    ("message", PDict (upload_message_dict rfc_message_id recipient_addresses
                         sender subject disposition)) ].

Definition upload_message (incident_id rfc_message_id : string)
    (recipient_addresses : list string)
    (sender subject disposition : option string) : World -> M pyval :=
  _request "POST" "/api/v1/tric/incidents/uploadMessage" true
    (json_kwargs (upload_message_payload incident_id rfc_message_id
                    recipient_addresses sender subject disposition)).

Definition download_message_mime (message_id : string) : World -> M pyval :=
  _request "GET"
    ("/api/v1/tric/messages/" ++ message_id ++ "/download")%string
    false no_kwargs.

(** *** The remaining endpoint methods *)

(** [str(b)] for a [bool]. *)
Definition py_str_bool (b : bool) : string := if b then "True" else "False".

(** [s.lower()] on ASCII text. *)
Definition lower_ascii (c : ascii) : ascii :=
  let n := nat_of_ascii c in
  if ((65 <=? n) && (n <=? 90))%nat then ascii_of_nat (n + 32) else c.

Fixpoint lower (s : string) : string :=
  match s with
  | EmptyString => EmptyString
  | String c t => String (lower_ascii c) (lower t)
  end.

Definition params_kwargs (params : dict) : kwargs :=
  {| kw_params := Some (PDict params); kw_json := None |}.

(** The [params] of [get_workflows] at its [return]. *)
Definition get_workflows_params (enabled : option bool)
    (workflow_type : option string) : dict :=
  let params := [] in
  let params :=
    match enabled with
    | Some b => dict_set params "enabled" (PStr (lower (py_str_bool b)))
    | None => params
    end in
  if truthy (py_opt PStr workflow_type)
  then dict_set params "type" (py_opt PStr workflow_type) else params.

Definition get_workflows (enabled : option bool)
    (workflow_type : option string) : World -> M pyval :=
  _request "GET" "/api/v1/tric/workflows" true
    (params_kwargs (get_workflows_params enabled workflow_type)).

Definition run_workflow (workflow_id : string) (target_ids : list string)
  : World -> M pyval :=
  _request "POST"
    ("/api/v1/tric/workflows/" ++ workflow_id ++ "/run")%string true
    (json_kwargs [("targetIds", py_strs target_ids)]).

Definition get_workflow_run_status (run_id : string) : World -> M pyval :=
  _request "GET" ("/api/v1/tric/workflows/run/" ++ run_id)%string true
    no_kwargs.

Definition get_incident_details (incident_id : string) : World -> M pyval :=
  _request "GET" ("/api/v1/tric/incidents/" ++ incident_id)%string true
    no_kwargs.

(** The [payload] of [get_incident_with_message_details] at its [return]. *)
Definition incident_messages_payload (start_row end_row : Z)
    (sort_params : option (list SortParam)) : dict :=
  let payload := [("startRow", PInt start_row); ("endRow", PInt end_row)] in
  match sort_params with
  | Some l =>
      if truthy (py_sort_params l)
      then dict_set payload "sortParams" (sort_dicts l)
      else payload
  | None => payload
  end.

Definition get_incident_with_message_details (incident_id : string)
    (start_row end_row : Z) (sort_params : option (list SortParam))
  : World -> M pyval :=
  _request "POST"
    ("/api/v1/tric/incidents/" ++ incident_id ++ "/messages")%string true
    (json_kwargs (incident_messages_payload start_row end_row sort_params)).

Definition create_incident (title description priority : string)
  : World -> M pyval :=
  _request "POST" "/api/v1/tric/incidents/createIncident" true
    (json_kwargs [ ("title", PStr title);
                   ("description", PStr description);
                   ("priority", PStr priority) ]).

Definition get_message_details (message_id : string) : World -> M pyval :=
  _request "GET" ("/api/v1/tric/messages/" ++ message_id)%string true
    no_kwargs.

Definition fetch_message_body (message_id : string) : World -> M pyval :=
  _request "GET" ("/api/v1/tric/messages/" ++ message_id ++ "/fetch")%string
    true no_kwargs.

Definition get_message_fetch_status (message_id : string)
  : World -> M pyval :=
  _request "GET"
    ("/api/v1/tric/messages/" ++ message_id ++ "/fetchStatus")%string
    true no_kwargs.

(** The public methods with their arguments, and the call of each. *)
Inductive ApiCall :=
| GetWorkflows (enabled : option bool) (workflow_type : option string)
| RunWorkflow (workflow_id : string) (target_ids : list string)
| GetWorkflowRunStatus (run_id : string)
| SearchIncidents (filters : option Filters) (start_row end_row : Z)
    (sort_params : option (list SortParam))
| GetIncidentCount (filters : Filters)
| GetIncidentDetails (incident_id : string)
| GetIncidentWithMessageDetails (incident_id : string) (start_row end_row : Z)
    (sort_params : option (list SortParam))
| CreateIncident (title description priority : string)
| UploadMessage (incident_id rfc_message_id : string)
    (recipient_addresses : list string)
    (sender subject disposition : option string)
| SearchMessages (filters : option Filters) (start_row end_row : Z)
    (sort_params : option (list SortParam))
| GetMessageDetails (message_id : string)
| FetchMessageBody (message_id : string)
| GetMessageFetchStatus (message_id : string)
| DownloadMessageMime (message_id : string).

Definition perform (c : ApiCall) : World -> M pyval :=
  match c with
  | GetWorkflows enabled workflow_type => get_workflows enabled workflow_type
  | RunWorkflow workflow_id target_ids => run_workflow workflow_id target_ids
  | GetWorkflowRunStatus run_id => get_workflow_run_status run_id
  | SearchIncidents filters start_row end_row sort_params =>
      search_incidents filters start_row end_row sort_params
  | GetIncidentCount filters => get_incident_count filters
  | GetIncidentDetails incident_id => get_incident_details incident_id
  | GetIncidentWithMessageDetails incident_id start_row end_row sort_params =>
      get_incident_with_message_details incident_id start_row end_row
        sort_params
  | CreateIncident title description priority =>
      create_incident title description priority
  | UploadMessage incident_id rfc_message_id recipient_addresses
      sender subject disposition =>
      upload_message incident_id rfc_message_id recipient_addresses
        sender subject disposition
  | SearchMessages filters start_row end_row sort_params =>
      search_messages filters start_row end_row sort_params
  | GetMessageDetails message_id => get_message_details message_id
  | FetchMessageBody message_id => fetch_message_body message_id
  | GetMessageFetchStatus message_id => get_message_fetch_status message_id
  | DownloadMessageMime message_id => download_message_mime message_id
  end.

(* ================================================================= *)
(** ** Sequences of calls on one client *)

(** One call as the dispatcher sees it: every endpoint method is [_request]
    at some arguments. *)
Record Request := {
  method : string;
  endpoint : string;
  return_json : bool;
  request_kwargs : kwargs
}.

Definition dispatch (c : Request) : World -> M pyval :=
  _request (method c) (endpoint c) (return_json c) (request_kwargs c).

(** The caller makes the calls one after the other, whatever each one
    returns or raises; the client and the transport calls are what is left. *)
Fixpoint run_calls (calls : list (Request * World))
    (self : ProofpointApiClient) : ProofpointApiClient * list Event :=
  match calls with
  | [] => (self, [])
  | (c, w) :: rest =>
      let o := dispatch c w self in
      let o' := run_calls rest (state_of o) in
      (fst o', events_of o ++ snd o')
  end.

(** The [json=] bodies of the API requests in a trace. *)
Definition request_bodies (evs : list Event) : list (option pyval) :=
  flat_map (fun e => match e with
                     | SessionRequest _ _ _ _ body => [body]
                     | TokenPost _ _ => []
                     end) evs.

(* ================================================================= *)
(** ** Notions used by the statements *)

(** No key of a dict, at any depth of the document, is bound to [None]. *)
Fixpoint no_null_keys (v : pyval) : bool :=
  match v with
  | PList l => forallb no_null_keys l
  | PDict d | PData _ d =>
      (fix entries (d : list (string * pyval)) : bool :=
         match d with
         | [] => true
         | (_, x) :: t => negb (is_none x) && no_null_keys x && entries t
         end) d
  | _ => true
  end.

Definition entry_ok (kv : string * pyval) : bool :=
  negb (is_none (snd kv)) && no_null_keys (snd kv).

(** A tree of value objects: scalars, lists and dataclass instances, with no
    plain dict in it. *)
Fixpoint value_object (v : pyval) : bool :=
  match v with
  | PList l => forallb value_object l
  | PData _ d =>
      (fix entries (d : list (string * pyval)) : bool :=
         match d with
         | [] => true
         | (_, x) :: t => value_object x && entries t
         end) d
  | PDict _ => false
  | _ => true
  end.

(** The serialized filters as the specification words them: one entry for
    each field that is present, none for a field that is absent, nested
    objects likewise. *)
Module Spec.

Definition field {A} (name : string) (to_json : A -> pyval) (o : option A)
  : list (string * pyval) :=
  match o with
  | Some a => [(name, to_json a)]
  | None => []
  end.

Definition json_strs (l : list string) : pyval := PList (map PStr l).

Definition json_TimeRangeFilter (t : TimeRangeFilter) : pyval :=
  PDict [("start", PStr (start t)); ("end", PStr (end_ t))].

Definition IncidentFilters_present (f : IncidentFilters) : dict :=
  field "time_range_filter" json_TimeRangeFilter (time_range_filter f) ++
  field "incident_id_filters" json_strs (incident_id_filters f) ++
  field "other_filters" json_strs (other_filters f) ++
  field "priority_filters" json_strs (priority_filters f) ++
  field "source_filters" json_strs (source_filters f) ++
  field "disposition_filters" json_strs (disposition_filters f) ++
  field "verdict_filters" json_strs (verdict_filters f) ++
  field "confidence_filters" json_strs (confidence_filters f).

Definition MessageFilters_present (m : MessageFilters) : dict :=
  IncidentFilters_present (incident_part m) ++
  field "message_id_filters" json_strs (message_id_filters m) ++
  field "recipient_address_filters" json_strs (recipient_address_filters m) ++
  field "sender_address_filters" json_strs (sender_address_filters m) ++
  field "subject_filters" json_strs (subject_filters m) ++
  field "status_filters" json_strs (status_filters m) ++
  field "quarantine_filters" json_strs (quarantine_filters m) ++
  field "tap_threat_filters" json_strs (tap_threat_filters m) ++
  field "tap_threat_type_filters" json_strs (tap_threat_type_filters m).

Definition Filters_present (f : Filters) : dict :=
  match f with
  | OfIncident f => IncidentFilters_present f
  | OfMessage m => MessageFilters_present m
  end.

End Spec.

(** [n] seconds, in the unit of [datetime]. *)
Definition seconds (n : Z) : Z := n * 1000000.

(** No token is held: the stored token is [None] (or otherwise false, as an
    empty string is) or no expiry is stored. *)
Definition no_token (self : ProofpointApiClient) : Prop :=
  truthy (_access_token self) = false \/ _token_expiry self = None.

(** The stored expiry instant is reached at [t]. *)
Definition expired_at (t : datetime.datetime) (self : ProofpointApiClient)
  : Prop :=
  exists expiry, _token_expiry self = Some expiry /\ expiry <= t.

(** A token is held and expires at [expiry]. *)
Definition holding_until (expiry : datetime.datetime)
    (self : ProofpointApiClient) : Prop :=
  truthy (_access_token self) = true /\ _token_expiry self = Some expiry.

(** All calls of a sequence are made before [t]. *)
Definition all_before (t : datetime.datetime)
    (calls : list (Request * World)) : Prop :=
  Forall (fun cw => utcnow_check (snd cw) < t) calls.

(** The class of a raised exception, when it is one of the client's. *)
Definition raised_class (e : PyExn) : option ExceptionClass :=
  match e with Api a => Some (cls a) | _ => None end.

(** The table of the documentation: the class for an error status. *)
Definition class_of_status (status : Z) : ExceptionClass :=
  if status =? 400 then ProofpointApiBadRequestError
  else if (status =? 401) || (status =? 403) then ProofpointApiAuthError
  else if status =? 429 then ProofpointApiRateLimitError
  else ProofpointApiException.

(** *** Concrete clients, responses and worlds *)

Module Demo.

(** A JSON string literal. *)
Definition q (s : string) : string :=
  String (ascii_of_nat 34) (s ++ String (ascii_of_nat 34) "")%string.

Definition body (text : string) (doc : string + pyval) (status : Z)
  : requests.Response :=
  {| requests.status_code := status;
     requests.content := list_byte_of_string text;
     requests.decoded := text;
     requests.json := doc |}.

(** The token document for the token [tok], valid 3600 seconds, with
    status 200. *)
Definition token_response : requests.Response :=
  body ("{" ++ q "access_token" ++ ":" ++ q "tok" ++ ","
            ++ q "expires_in" ++ ":3600}")%string
       (inr (PDict [("access_token", PStr "tok"); ("expires_in", PInt 3600)]))
       200.

(** A 500 from the token endpoint or the API. *)
Definition server_error : requests.Response :=
  body "Internal Server Error" (inl "Expecting value") 500.

(** An empty 200 / 204. *)
Definition empty_response (status : Z) : requests.Response :=
  body "" (inl "Expecting value") status.

(** An error response whose body is the JSON document [[]]. *)
Definition array_error (status : Z) : requests.Response :=
  body "[]" (inr (PList [])) status.

(** An .EML download. *)
Definition eml_response : requests.Response :=
  body "From: a@example.org" (inl "Expecting value") 200.

(** Token documents with something missing or odd, all with status 200. *)
Definition no_token_document : requests.Response :=
  body "{}" (inr (PDict [])) 200.

Definition no_expiry_document : requests.Response :=
  body ("{" ++ q "access_token" ++ ":" ++ q "tok" ++ "}")%string
       (inr (PDict [("access_token", PStr "tok")])) 200.

Definition text_expiry_document : requests.Response :=
  body ("{" ++ q "access_token" ++ ":" ++ q "new" ++ ","
            ++ q "expires_in" ++ ":" ++ q "3600" ++ "}")%string
       (inr (PDict [("access_token", PStr "new");
                    ("expires_in", PStr "3600")])) 200.

Definition short_document : requests.Response :=
  body ("{" ++ q "access_token" ++ ":" ++ q "tok" ++ ","
            ++ q "expires_in" ++ ":60}")%string
       (inr (PDict [("access_token", PStr "tok"); ("expires_in", PInt 60)]))
       200.

Definition brief_document : requests.Response :=
  body ("{" ++ q "access_token" ++ ":" ++ q "tok" ++ ","
            ++ q "expires_in" ++ ":360}")%string
       (inr (PDict [("access_token", PStr "tok"); ("expires_in", PInt 360)]))
       200.

(** An error answer of the API with a JSON object that has an
    [errorMessage]. *)
Definition object_error (status : Z) : requests.Response :=
  body ("{" ++ q "errorMessage" ++ ":" ++ q "bad filter" ++ "}")%string
       (inr (PDict [("errorMessage", PStr "bad filter")])) status.

(** A 200 answer of the API with a JSON object. *)
Definition count_response : requests.Response :=
  body ("{" ++ q "count" ++ ":7}")%string
       (inr (PDict [("count", PInt 7)])) 200.

Definition t0 : datetime.datetime := seconds 63000000000.

(** A client that obtained the token ["tok"] at [t0] for 3600 seconds. *)
Definition client : ProofpointApiClient :=
  {| base_url := default_base_url; token_url := default_token_url;
     client_id := "id"; client_secret := "secret";
     _access_token := PStr "tok";
     _token_expiry := Some (t0 + seconds 3300) |}.

(** The same client before its first token fetch. *)
Definition blank : ProofpointApiClient :=
  {| base_url := default_base_url; token_url := default_token_url;
     client_id := "id"; client_secret := "secret";
     _access_token := PNone; _token_expiry := None |}.

(** The world [dt] seconds after [t0]: the token endpoint would answer
    [token], the API answers [api]. *)
Definition world (dt : Z) (token api : requests.outcome) : World :=
  {| utcnow_check := t0 + seconds dt; token_endpoint := token;
     utcnow_refresh := t0 + seconds dt; api_endpoint := api |}.

Definition ok_world (dt : Z) : World :=
  world dt (requests.Responded token_response)
           (requests.Responded (empty_response 200)).

Definition get (path : string) : Request :=
  {| method := "GET"; endpoint := path; return_json := true;
     request_kwargs := no_kwargs |}.

(** Two calls after the expiry while the token endpoint is down. *)
Definition outage : list (Request * World) :=
  [ (get "/api/v1/tric/workflows",
     world 3300 (requests.Responded server_error)
                (requests.Responded (empty_response 200)));
    (get "/api/v1/tric/workflows",
     world 3400 (requests.Raised "Connection refused")
                (requests.Responded (empty_response 200))) ].

End Demo.

(** *** Further notions *)

(** The number of API requests in a trace. *)
Definition api_requests (evs : list Event) : nat :=
  List.length (request_bodies evs).

(** Two clients with the same configuration: URLs and credentials. *)
Definition same_config (a b : ProofpointApiClient) : Prop :=
  base_url a = base_url b /\ token_url a = token_url b /\
  client_id a = client_id b /\ client_secret a = client_secret b.

(** The token endpoint does not issue a token: it cannot be reached or it
    answers with a status other than 200. *)
Definition token_endpoint_fails (w : World) : Prop :=
  match token_endpoint w with
  | requests.Raised _ => True
  | requests.Responded r => requests.status_code r <> 200
  end.

(** A value that is neither an [int] nor a [bool]. *)
Definition not_a_number (v : pyval) : Prop :=
  match v with
  | PInt _ | PBool _ => False
  | _ => True
  end.

(** The API request of a call on a client. *)
Definition api_request (c : Request) (self : ProofpointApiClient) : Event :=
  SessionRequest (method c) (base_url self ++ endpoint c)%string
    [Lit "Bearer "; Fmt (_access_token self)]
    (kw_params (request_kwargs c)) (kw_json (request_kwargs c)).

(** Pairwise distinct keys, decided. *)
Fixpoint distinct (l : list string) : bool :=
  match l with
  | [] => true
  | k :: t => negb (existsb (String.eqb k) t) && distinct t
  end.

(* ================================================================= *)
(** ** Dicts *)

Lemma distinct_NoDup (l : list string) : distinct l = true -> NoDup l.
Proof.
  induction l as [|k t IH]; simpl; intro H.
  - constructor.
  - apply andb_true_iff in H as [Hk Ht].
    constructor; [|now apply IH].
    intro Hin. apply negb_true_iff in Hk.
    assert (existsb (String.eqb k) t = true) as E.
    { apply existsb_exists. exists k. split; [assumption|apply String.eqb_refl]. }
    congruence.
Qed.

Lemma dict_set_fresh (d : dict) (k : string) (v : pyval) :
  ~ In k (keys d) -> dict_set d k v = d ++ [(k, v)].
Proof.
  induction d as [|[k' v'] t IH]; simpl; intro H.
  - reflexivity.
  - destruct (String.eqb_spec k' k) as [->|_].
    + exfalso. apply H. now left.
    + rewrite IH; [reflexivity|]. intro Hin. apply H. now right.
Qed.

Lemma dict_get_app (d1 d2 : dict) (k : string) :
  dict_get (d1 ++ d2) k =
  match dict_get d1 k with Some v => Some v | None => dict_get d2 k end.
Proof.
  induction d1 as [|[k' v'] t IH]; simpl; [reflexivity|].
  destruct (String.eqb k' k); [reflexivity|apply IH].
Qed.

Lemma dict_get_In (d : dict) (k : string) (v : pyval) :
  NoDup (keys d) -> In (k, v) d -> dict_get d k = Some v.
Proof.
  induction d as [|[k' v'] t IH]; simpl; intros Hnd Hin; [contradiction|].
  inversion Hnd as [|? ? Hk Ht]; subst.
  destruct Hin as [E|Hin].
  - inversion E; subst. now rewrite String.eqb_refl.
  - destruct (String.eqb_spec k' k) as [->|_].
    + exfalso. apply Hk. change (In (fst (k, v)) (map fst t)). now apply in_map.
    + now apply IH.
Qed.

Lemma dict_get_None (d : dict) (k : string) :
  dict_get d k = None <-> ~ In k (keys d).
Proof.
  induction d as [|[k' v'] t IH]; simpl.
  - tauto.
  - destruct (String.eqb_spec k' k) as [->|Hne].
    + split; [discriminate|]. intro H. exfalso. apply H. now left.
    + rewrite IH. tauto.
Qed.

(** A comprehension over items with distinct keys is the items themselves,
    in order. *)
Lemma fold_dict_set_distinct (items acc : dict) :
  NoDup (keys (acc ++ items)) ->
  fold_left (fun d kv => dict_set d (fst kv) (snd kv)) items acc = acc ++ items.
Proof.
  revert acc. induction items as [|[k v] t IH]; intros acc Hnd; simpl.
  - now rewrite app_nil_r.
  - rewrite dict_set_fresh.
    + rewrite IH; rewrite <- app_assoc; [reflexivity|exact Hnd].
    + unfold keys in *. rewrite map_app in Hnd. simpl in Hnd.
      apply NoDup_remove_2 in Hnd. intro Hin. apply Hnd.
      apply in_or_app. now left.
Qed.

Lemma dict_of_items_distinct (items : dict) :
  NoDup (keys items) -> dict_of_items items = items.
Proof.
  intro H. unfold dict_of_items. now rewrite fold_dict_set_distinct.
Qed.

(* ================================================================= *)
(** ** [asdict_factory] *)

Lemma kept_items_cons (k : string) (v : pyval) (t : list (string * pyval)) :
  kept_items ((k, v) :: t) =
  if is_none v then kept_items t else (k, convert_value v) :: kept_items t.
Proof.
  unfold kept_items. simpl. now destruct (is_none v).
Qed.

Lemma kept_items_app (a b : list (string * pyval)) :
  kept_items (a ++ b) = kept_items a ++ kept_items b.
Proof.
  unfold kept_items. now rewrite filter_app, map_app.
Qed.

(** The comprehension inside [convert_value] is the one of
    [asdict_factory]. *)
Lemma convert_value_dataclass (c : string) (fields : list (string * pyval)) :
  convert_value (PData c fields) = PDict (asdict_factory fields).
Proof.
  simpl. unfold asdict_factory. do 2 f_equal.
  induction fields as [|[k v] t IH]; [reflexivity|].
  rewrite kept_items_cons, IH. reflexivity.
Qed.

Lemma kept_items_keys_incl (data : list (string * pyval)) (k : string) :
  In k (keys (kept_items data)) -> In k (keys data).
Proof.
  induction data as [|[k' v] t IH]; [easy|].
  rewrite kept_items_cons. destruct (is_none v); simpl; intuition.
Qed.

Lemma kept_items_distinct (data : list (string * pyval)) :
  NoDup (keys data) -> NoDup (keys (kept_items data)).
Proof.
  induction data as [|[k v] t IH]; intro H.
  - constructor.
  - inversion H as [|? ? Hk Ht]; subst.
    rewrite kept_items_cons. destruct (is_none v); [now apply IH|].
    simpl. constructor; [|now apply IH].
    intro Hin. apply Hk. now apply kept_items_keys_incl.
Qed.

Lemma asdict_factory_distinct (data : list (string * pyval)) :
  NoDup (keys data) -> asdict_factory data = kept_items data.
Proof.
  intro H. apply dict_of_items_distinct. now apply kept_items_distinct.
Qed.

Lemma kept_items_In (data : list (string * pyval)) (k : string) (v' : pyval) :
  In (k, v') (kept_items data) <->
  exists v, In (k, v) data /\ v <> PNone /\ v' = convert_value v.
Proof.
  unfold kept_items. rewrite in_map_iff. split.
  - intros [[k0 v] [E Hin]]. simpl in E. inversion E; subst.
    apply filter_In in Hin as [Hin Hv]. simpl in Hv.
    exists v. repeat split; [assumption|].
    intro; subst; discriminate.
  - intros [v [Hin [Hv ->]]]. exists (k, v). split; [reflexivity|].
    apply filter_In. split; [assumption|]. simpl. now destruct v.
Qed.

(** What the serialized dict holds under the key of an input item. *)
Lemma asdict_factory_get (data : list (string * pyval)) (k : string)
    (v : pyval) :
  NoDup (keys data) -> In (k, v) data ->
  dict_get (asdict_factory data) k =
  if is_none v then None else Some (convert_value v).
Proof.
  intros Hnd Hin. rewrite asdict_factory_distinct by assumption.
  destruct (is_none v) eqn:Hv.
  - apply dict_get_None. intro Hk.
    unfold keys in Hk. apply in_map_iff in Hk as [[k0 v'] [E Hin']].
    simpl in E; subst k0.
    apply kept_items_In in Hin' as [v0 [Hin0 [Hne _]]].
    pose proof (dict_get_In _ _ _ Hnd Hin) as G.
    pose proof (dict_get_In _ _ _ Hnd Hin0) as G0.
    rewrite G in G0. inversion G0; subst v0.
    destruct v; try discriminate. now apply Hne.
  - apply dict_get_In; [now apply kept_items_distinct|].
    apply kept_items_In. exists v. repeat split; [assumption|].
    intro; subst; discriminate.
Qed.

Lemma asdict_factory_keys (data : list (string * pyval)) (k : string) :
  NoDup (keys data) ->
  (In k (keys (asdict_factory data)) <->
   exists v, In (k, v) data /\ v <> PNone).
Proof.
  intro Hnd. rewrite asdict_factory_distinct by assumption.
  unfold keys. rewrite in_map_iff. split.
  - intros [[k0 v'] [E Hin]]. simpl in E; subst k0.
    apply kept_items_In in Hin as [v [Hin [Hne _]]]. eauto.
  - intros [v [Hin Hne]]. exists (k, convert_value v). split; [reflexivity|].
    apply kept_items_In. eauto.
Qed.

(** *** The serializer on arbitrary trees of value objects *)

Lemma no_null_keys_dict (d : dict) :
  no_null_keys (PDict d) = forallb entry_ok d.
Proof.
  induction d as [|[k v] t IH]; [reflexivity|].
  simpl in *. unfold entry_ok at 1. simpl. now rewrite IH.
Qed.

(** Induction on values that reaches under lists and fields. *)
Lemma pyval_nested_ind (P : pyval -> Prop) :
  P PNone -> (forall b, P (PBool b)) -> (forall n, P (PInt n)) ->
  (forall s, P (PStr s)) -> (forall b, P (PBytes b)) ->
  (forall l, Forall P l -> P (PList l)) ->
  (forall d, Forall (fun kv => P (snd kv)) d -> P (PDict d)) ->
  (forall c d, Forall (fun kv => P (snd kv)) d -> P (PData c d)) ->
  forall v, P v.
Proof.
  intros HN HB HI HS HY HL HD HC.
  fix IH 1. intros [| b | n | s | b | l | d | c d].
  - exact HN.
  - apply HB.
  - apply HI.
  - apply HS.
  - apply HY.
  - apply HL. induction l as [|x t IHl]; constructor; [apply IH|exact IHl].
  - apply HD. induction d as [|[k x] t IHd]; constructor;
      [apply IH|exact IHd].
  - apply HC. induction d as [|[k x] t IHd]; constructor;
      [apply IH|exact IHd].
Qed.

Lemma is_none_convert_value (v : pyval) :
  is_none (convert_value v) = is_none v.
Proof.
  now destruct v.
Qed.

Lemma dict_set_entries_ok (d : dict) (k : string) (v : pyval) :
  forallb entry_ok d = true -> entry_ok (k, v) = true ->
  forallb entry_ok (dict_set d k v) = true.
Proof.
  intros Hd Hv. induction d as [|[k' v'] t IH]; simpl.
  - now rewrite Hv.
  - simpl in Hd. apply andb_true_iff in Hd as [H1 H2].
    destruct (String.eqb k' k); simpl.
    + change (entry_ok (k', v)) with (entry_ok (k, v)).
      now rewrite Hv, H2.
    + now rewrite H1, IH.
Qed.

Lemma dict_of_items_entries_ok (items : list (string * pyval)) :
  forallb entry_ok items = true ->
  forallb entry_ok (dict_of_items items) = true.
Proof.
  unfold dict_of_items.
  assert (G : forall acc, forallb entry_ok acc = true ->
            forallb entry_ok items = true ->
            forallb entry_ok
              (fold_left (fun d kv => dict_set d (fst kv) (snd kv)) items acc)
            = true).
  { induction items as [|[k v] t IH]; intros acc Hacc Hit; simpl; [easy|].
    simpl in Hit. apply andb_true_iff in Hit as [H1 H2].
    apply IH; [|exact H2]. now apply dict_set_entries_ok. }
  intro H. now apply G.
Qed.

Lemma value_object_fields (c : string) (d : list (string * pyval)) :
  value_object (PData c d) = forallb (fun kv => value_object (snd kv)) d.
Proof.
  induction d as [|[k v] t IH]; [reflexivity|].
  simpl in *. now rewrite IH.
Qed.

(** Whatever the nesting of dataclass instances and lists, the serialized
    document binds no key to [None]. *)
Lemma convert_value_no_null_keys (v : pyval) :
  value_object v = true -> no_null_keys (convert_value v) = true.
Proof.
  induction v as [| b | n | s | b | l IH | d IH | c d IH]
    using pyval_nested_ind; intro Hv; try reflexivity.
  - simpl in *. rewrite forallb_forall in *. intros x Hx.
    apply in_map_iff in Hx as [y [<- Hy]].
    rewrite Forall_forall in IH. auto.
  - discriminate.
  - rewrite convert_value_dataclass, no_null_keys_dict.
    apply dict_of_items_entries_ok.
    rewrite value_object_fields in Hv.
    rewrite forallb_forall in *. intros [k x'] Hx.
    apply kept_items_In in Hx as [x [Hin [Hne ->]]].
    unfold entry_ok. simpl.
    rewrite is_none_convert_value.
    rewrite Forall_forall in IH.
    pose proof (IH _ Hin (Hv _ Hin)) as E. simpl in E. rewrite E.
    now destruct x.
Qed.

(* ================================================================= *)
(** ** Filter objects *)

Lemma Filters_items_distinct (f : Filters) : NoDup (keys (Filters_items f)).
Proof.
  apply distinct_NoDup. destruct f; reflexivity.
Qed.

Lemma convert_value_strs (l : list string) :
  convert_value (py_strs l) = Spec.json_strs l.
Proof.
  unfold py_strs, Spec.json_strs. simpl. f_equal.
  rewrite map_map. apply map_ext. reflexivity.
Qed.

Lemma convert_value_TimeRangeFilter (t : TimeRangeFilter) :
  convert_value (py_TimeRangeFilter t) = Spec.json_TimeRangeFilter t.
Proof.
  reflexivity.
Qed.

Lemma kept_strs (k : string) (o : option (list string))
    (t : list (string * pyval)) :
  kept_items ((k, py_opt py_strs o) :: t) =
  Spec.field k Spec.json_strs o ++ kept_items t.
Proof.
  rewrite kept_items_cons. destruct o as [l|]; [|reflexivity].
  cbn [py_opt]. change (is_none (py_strs l)) with false. cbv iota.
  rewrite convert_value_strs. reflexivity.
Qed.

Lemma kept_TimeRangeFilter (k : string) (o : option TimeRangeFilter)
    (t : list (string * pyval)) :
  kept_items ((k, py_opt py_TimeRangeFilter o) :: t) =
  Spec.field k Spec.json_TimeRangeFilter o ++ kept_items t.
Proof.
  rewrite kept_items_cons. now destruct o.
Qed.

Lemma kept_IncidentFilters (f : IncidentFilters) :
  kept_items (IncidentFilters_items f) = Spec.IncidentFilters_present f.
Proof.
  unfold IncidentFilters_items, Spec.IncidentFilters_present.
  rewrite kept_TimeRangeFilter. rewrite !kept_strs.
  change (kept_items []) with (@nil (string * pyval)).
  now rewrite app_nil_r.
Qed.

Lemma kept_Filters (f : Filters) :
  kept_items (Filters_items f) = Spec.Filters_present f.
Proof.
  destruct f as [f|m]; simpl; [apply kept_IncidentFilters|].
  unfold MessageFilters_items, Spec.MessageFilters_present.
  rewrite kept_items_app, kept_IncidentFilters, !kept_strs.
  change (kept_items []) with (@nil (string * pyval)).
  now rewrite app_nil_r.
Qed.

Lemma asdict_factory_Filters (f : Filters) :
  asdict_factory (Filters_items f) = Spec.Filters_present f.
Proof.
  rewrite asdict_factory_distinct by apply Filters_items_distinct.
  apply kept_Filters.
Qed.

Lemma no_null_keys_strs (l : list string) :
  no_null_keys (Spec.json_strs l) = true.
Proof.
  unfold Spec.json_strs. simpl. induction l; simpl; auto.
Qed.

Lemma field_strs_ok (k : string) (o : option (list string)) :
  forallb entry_ok (Spec.field k Spec.json_strs o) = true.
Proof.
  destruct o as [l|]; [|reflexivity].
  simpl. unfold entry_ok. simpl snd.
  change (PList (map PStr l)) with (Spec.json_strs l).
  now rewrite no_null_keys_strs.
Qed.

Lemma field_TimeRangeFilter_ok (k : string) (o : option TimeRangeFilter) :
  forallb entry_ok (Spec.field k Spec.json_TimeRangeFilter o) = true.
Proof.
  now destruct o.
Qed.

Lemma Filters_present_no_null (f : Filters) :
  no_null_keys (PDict (Spec.Filters_present f)) = true.
Proof.
  rewrite no_null_keys_dict.
  destruct f as [f|m]; simpl;
    unfold Spec.MessageFilters_present, Spec.IncidentFilters_present;
    rewrite ?forallb_app, field_TimeRangeFilter_ok, ?field_strs_ok;
    reflexivity.
Qed.

Lemma search_payload_filters (f : Filters) (start_row end_row : Z)
    (sort_params : option (list SortParam)) :
  dict_get (search_payload (Some f) start_row end_row sort_params) "filters"
  = Some (PDict (asdict_factory (Filters_items f))).
Proof.
  unfold search_payload.
  replace (truthy (py_Filters f)) with true by now destruct f.
  destruct sort_params as [[|p l]|]; reflexivity.
Qed.

Lemma search_payload_no_filters (start_row end_row : Z)
    (sort_params : option (list SortParam)) :
  dict_get (search_payload None start_row end_row sort_params) "filters" = None.
Proof.
  unfold search_payload. destruct sort_params as [[|p l]|]; reflexivity.
Qed.

(* ================================================================= *)
(** ** Token manager *)

Ltac run_m :=
  unfold bind, ret, raise, get_self, update, call, lift,
         state_of, events_of, result_of; simpl.

Lemma token_posts_app (a b : list Event) :
  token_posts (a ++ b) = (token_posts a + token_posts b)%nat.
Proof.
  unfold token_posts. now rewrite filter_app, length_app.
Qed.

(** A refresh calls the token endpoint once, whatever comes back. *)
Lemma _refresh_token_events post utcnow self :
  events_of (_refresh_token post utcnow self) =
  [TokenPost (token_url self) (token_form self)].
Proof.
  unfold _refresh_token. run_m.
  destruct post as [r|e]; [|reflexivity].
  destruct (negb (requests.status_code r =? 200)); [reflexivity|].
  destruct (requests.json r) as [e|token_data]; [reflexivity|].
  unfold bind, lift, update.
  destruct (subscript token_data "access_token"); [reflexivity|].
  destruct (py_get token_data "expires_in" (PInt 3600)) as [|expires_in];
    [reflexivity|].
  destruct (py_sub expires_in 300) as [|secs]; [reflexivity|].
  destruct (or_overflow (datetime.timedelta_seconds secs)) as [|delta];
    [reflexivity|].
  destruct (or_overflow (datetime.add utcnow delta)); reflexivity.
Qed.

Lemma _refresh_token_non_200 r utcnow self :
  requests.status_code r <> 200 ->
  _refresh_token (requests.Responded r) utcnow self =
  (self, [TokenPost (token_url self) (token_form self)],
   inl (new_error ProofpointApiAuthError [Lit "Failed to obtain access token"]
          (Some (requests.status_code r)) (Some (requests.text r)))).
Proof.
  intro H. unfold _refresh_token. run_m.
  apply Z.eqb_neq in H. now rewrite H.
Qed.

Lemma _refresh_token_transport e utcnow self :
  _refresh_token (requests.Raised e) utcnow self =
  (self, [TokenPost (token_url self) (token_form self)],
   inl (new_error ProofpointApiException
          [Lit "Failed to obtain access token: "; Lit e] None None)).
Proof.
  reflexivity.
Qed.

(** What a refresh that returns has read and stored. *)
Lemma _refresh_token_returns r utcnow self self' evs u :
  _refresh_token (requests.Responded r) utcnow self = (self', evs, inr u) ->
  exists token_data access_token secs,
    requests.status_code r = 200 /\
    requests.json r = inr (PDict token_data) /\
    dict_get token_data "access_token" = Some access_token /\
    py_sub (dict_get_default token_data "expires_in" (PInt 3600)) 300
      = inr secs /\
    self' = set_token_expiry (Some (utcnow + seconds secs))
              (set_access_token access_token self).
Proof.
  unfold _refresh_token. run_m.
  destruct (requests.status_code r =? 200) eqn:Hs; simpl; [|discriminate].
  apply Z.eqb_eq in Hs.
  destruct (requests.json r) as [e|token_data]; [discriminate|].
  destruct token_data as [| | | | | |d|]; run_m; try discriminate.
  destruct (dict_get d "access_token") as [tok|] eqn:Htok; simpl;
    [|discriminate].
  destruct (py_sub (dict_get_default d "expires_in" (PInt 3600)) 300)
    as [e|secs] eqn:Hsub; simpl; [discriminate|].
  unfold datetime.timedelta_seconds, datetime.add.
  destruct (_ && _); simpl; [|discriminate].
  destruct (datetime.in_range _); simpl; [|discriminate].
  intro H. inversion H; subst.
  exists d, tok, secs. repeat split; auto.
Qed.

Lemma _ensure_valid_token_fresh w self expiry :
  holding_until expiry self -> utcnow_check w < expiry ->
  _ensure_valid_token w self = (self, [], inr tt).
Proof.
  intros [Htok Hexp] Hlt. unfold _ensure_valid_token. run_m.
  rewrite Htok, Hexp. simpl. unfold datetime.ge.
  apply Z.leb_gt in Hlt. now rewrite Hlt.
Qed.

Lemma _ensure_valid_token_refreshes w self :
  no_token self \/ expired_at (utcnow_check w) self ->
  _ensure_valid_token w self =
  _refresh_token (token_endpoint w) (utcnow_refresh w) self.
Proof.
  intros H. unfold _ensure_valid_token, bind at 1, get_self.
  destruct (_refresh_token (token_endpoint w) (utcnow_refresh w) self)
    as [[s1 e1] r1] eqn:Href.
  destruct (truthy (_access_token self)) eqn:Htok; simpl;
    [|now rewrite Href; destruct r1].
  destruct (_token_expiry self) as [expiry|] eqn:Hexp; simpl;
    [|now rewrite Href; destruct r1].
  destruct H as [[H|H]|[x [Hx Hle]]]; try congruence.
  assert (x = expiry) by congruence; subst x. unfold datetime.ge.
  apply Z.leb_le in Hle. rewrite Hle, Href. now destruct r1.
Qed.

(** The two cases are exhaustive. *)
Lemma token_state_cases t self :
  (no_token self \/ expired_at t self) \/
  exists expiry, holding_until expiry self /\ t < expiry.
Proof.
  unfold no_token, expired_at, holding_until.
  destruct (truthy (_access_token self)); [|now left; left; left].
  destruct (_token_expiry self) as [expiry|]; [|now left; left; right].
  destruct (Z_lt_le_dec t expiry).
  - right. exists expiry. auto.
  - left. right. exists expiry. auto.
Qed.

Lemma fresh_not_stale t self expiry :
  holding_until expiry self -> t < expiry ->
  ~ (no_token self \/ expired_at t self).
Proof.
  intros [Htok Hexp] Hlt [[H|H]|[x [Hx Hle]]]; try congruence.
  rewrite Hexp in Hx. inversion Hx; subst. lia.
Qed.

(* ================================================================= *)
(** ** Request dispatcher *)

(** The dispatcher in one piece: the token step, then one transport call,
    then the response is sorted out; [self] changes in the token step
    only. *)
Lemma _request_steps method endpoint return_json kw w self :
  _request method endpoint return_json kw w self =
  match _ensure_valid_token w self with
  | (self1, evs, inl e) => (self1, evs, inl e)
  | (self1, evs, inr _) =>
      (self1,
       evs ++ [SessionRequest method (base_url self1 ++ endpoint)%string
                 [Lit "Bearer "; Fmt (_access_token self1)]
                 (kw_params kw) (kw_json kw)],
       match api_endpoint w with
       | requests.Raised e =>
           inl (new_error ProofpointApiException
                  [Lit "Request failed: "; Lit e] None None)
       | requests.Responded response =>
           if (400 <=? requests.status_code response)
              && (requests.status_code response <? 600)
           then inl (_handle_error response)
           else if return_json then
             if truthy (PStr (requests.text response)) then
               match requests.json response with
               | inr v => inr v
               | inl e => inl (new_error ProofpointApiException
                                 [Lit "Request failed: "; Lit e] None None)
               end
             else inr (PDict [])
           else inr (PBytes (requests.content response))
       end)
  end.
Proof.
  unfold _request, bind at 1.
  destruct (_ensure_valid_token w self) as [[self1 evs] [e|u]]; [reflexivity|].
  run_m. destruct (api_endpoint w) as [response|e]; [|reflexivity].
  destruct (_ && _); [reflexivity|].
  destruct return_json; [|reflexivity].
  destruct (negb _); [|reflexivity].
  now destruct (requests.json response).
Qed.

Lemma _request_state method endpoint return_json kw w self :
  state_of (_request method endpoint return_json kw w self) =
  state_of (_ensure_valid_token w self).
Proof.
  rewrite _request_steps.
  now destruct (_ensure_valid_token w self) as [[self1 evs] [e|u]].
Qed.

Lemma _request_token_posts method endpoint return_json kw w self :
  token_posts (events_of (_request method endpoint return_json kw w self)) =
  token_posts (events_of (_ensure_valid_token w self)).
Proof.
  rewrite _request_steps.
  destruct (_ensure_valid_token w self) as [[self1 evs] [e|u]];
    [reflexivity|].
  unfold events_of. simpl. rewrite token_posts_app. simpl.
  unfold token_posts at 2. simpl. lia.
Qed.

Lemma _request_bodies method endpoint return_json kw w self :
  request_bodies (events_of (_request method endpoint return_json kw w self)) =
  request_bodies (events_of (_ensure_valid_token w self)) ++
  if succeeded (result_of (_ensure_valid_token w self))
  then [kw_json kw] else [].
Proof.
  rewrite _request_steps.
  destruct (_ensure_valid_token w self) as [[self1 evs] [e|u]];
    unfold events_of, result_of; simpl.
  - now rewrite app_nil_r.
  - unfold request_bodies. now rewrite flat_map_app.
Qed.

(** The token step itself sends nothing to the API. *)
Lemma _ensure_valid_token_bodies w self :
  request_bodies (events_of (_ensure_valid_token w self)) = [].
Proof.
  destruct (token_state_cases (utcnow_check w) self) as [H|[x [H Hlt]]].
  - rewrite _ensure_valid_token_refreshes, _refresh_token_events by exact H.
    reflexivity.
  - now rewrite (_ensure_valid_token_fresh w self x).
Qed.

(** How many refreshes one token step makes. *)
Lemma _ensure_valid_token_posts w self :
  (no_token self \/ expired_at (utcnow_check w) self ->
   token_posts (events_of (_ensure_valid_token w self)) = 1%nat) /\
  (~ (no_token self \/ expired_at (utcnow_check w) self) ->
   token_posts (events_of (_ensure_valid_token w self)) = 0%nat).
Proof.
  split; intro H.
  - rewrite _ensure_valid_token_refreshes, _refresh_token_events by exact H.
    reflexivity.
  - destruct (token_state_cases (utcnow_check w) self) as [H'|[x [H' Hlt]]];
      [contradiction|].
    now rewrite (_ensure_valid_token_fresh w self x).
Qed.

(* ================================================================= *)
(** ** Sequences of calls *)

Lemma run_calls_app (a b : list (Request * World)) self :
  run_calls (a ++ b) self =
  (fst (run_calls b (fst (run_calls a self))),
   snd (run_calls a self) ++ snd (run_calls b (fst (run_calls a self)))).
Proof.
  revert self. induction a as [|[c w] t IH]; intro self; simpl.
  - now destruct (run_calls b self).
  - rewrite IH. simpl. now rewrite app_assoc.
Qed.

(** While the token is fresh, calls neither refresh it nor touch the
    client. *)
Lemma run_calls_fresh (calls : list (Request * World)) self expiry :
  holding_until expiry self -> all_before expiry calls ->
  fst (run_calls calls self) = self /\
  token_posts (snd (run_calls calls self)) = 0%nat.
Proof.
  intros Hhold Hall. induction Hall as [|[c w] t Hlt _ IH]; [now split|].
  simpl in *. unfold dispatch.
  rewrite token_posts_app, _request_token_posts, _request_state.
  rewrite (_ensure_valid_token_fresh w self expiry Hhold Hlt).
  unfold state_of, events_of. simpl. exact IH.
Qed.

(** A call at or after the expiry refreshes once. *)
Lemma dispatch_stale c w self :
  no_token self \/ expired_at (utcnow_check w) self ->
  token_posts (events_of (dispatch c w self)) = 1%nat.
Proof.
  intro H. unfold dispatch. rewrite _request_token_posts.
  now apply _ensure_valid_token_posts.
Qed.

(* ================================================================= *)
(** ** The token lifecycle *)

(** C1.  [_ensure_valid_token] makes a refresh (one call to the token
    endpoint) exactly when no token is held or the clock has reached the
    stored expiry, and none otherwise.  A refresh that returns at [t] with the
    server's [expires_in] stores the expiry [t + (expires_in - 300)] seconds.
    Hence, for a client constructed at [t0] with [expires_in = 3600] and a
    non-empty token: any number of calls before [t0 + 3300] leave the total
    at the one refresh of the constructor; a further call at or after
    [t0 + 3300] brings it to exactly two, and it stays at two for the calls
    made before the new expiry. *)
Theorem token_refresh_schedule :
  (forall w self,
     (token_posts (events_of (_ensure_valid_token w self)) = 1%nat <->
      no_token self \/ expired_at (utcnow_check w) self) /\
     (token_posts (events_of (_ensure_valid_token w self)) = 0%nat <->
      ~ (no_token self \/ expired_at (utcnow_check w) self))) /\
  (forall r t self self' evs u token_data expires_in,
     _refresh_token (requests.Responded r) t self = (self', evs, inr u) ->
     requests.json r = inr (PDict token_data) ->
     dict_get_default token_data "expires_in" (PInt 3600) = PInt expires_in ->
     _token_expiry self' = Some (t + seconds (expires_in - 300))) /\
  (forall id secret base turl r t0 evs0 self token_data before,
     __init__ id secret base turl (requests.Responded r) t0 = (evs0, inr self) ->
     requests.json r = inr (PDict token_data) ->
     dict_get_default token_data "expires_in" (PInt 3600) = PInt 3600 ->
     truthy (_access_token self) = true ->
     all_before (t0 + seconds 3300) before ->
     token_posts (evs0 ++ snd (run_calls before self)) = 1%nat /\
     forall c w, t0 + seconds 3300 <= utcnow_check w ->
       token_posts (evs0 ++ snd (run_calls (before ++ [(c, w)]) self)) = 2%nat /\
       forall expiry2 after,
         holding_until expiry2 (fst (run_calls (before ++ [(c, w)]) self)) ->
         all_before expiry2 after ->
         token_posts
           (evs0 ++ snd (run_calls (before ++ (c, w) :: after) self)) = 2%nat).
Proof.
  assert (Hstored : forall r t self self' evs u token_data expires_in,
     _refresh_token (requests.Responded r) t self = (self', evs, inr u) ->
     requests.json r = inr (PDict token_data) ->
     dict_get_default token_data "expires_in" (PInt 3600) = PInt expires_in ->
     _token_expiry self' = Some (t + seconds (expires_in - 300))).
  { intros r t self self' evs u token_data expires_in Href Hjson Hexp.
    apply _refresh_token_returns in Href
      as (d & tok & secs & _ & Hd & _ & Hsub & ->).
    rewrite Hjson in Hd. inversion Hd; subst d.
    rewrite Hexp in Hsub. simpl in Hsub. inversion Hsub; subst secs.
    reflexivity. }
  split; [|split; [exact Hstored|]].
  - intros w self.
    destruct (_ensure_valid_token_posts w self) as [H1 H0].
    destruct (token_state_cases (utcnow_check w) self) as [H|[x [Hh Hlt]]].
    + rewrite (H1 H). split; split; auto; try discriminate.
      intro Hn. contradiction.
    + pose proof (fresh_not_stale _ _ _ Hh Hlt) as Hn.
      rewrite (H0 Hn). split; split; auto; try discriminate.
      intro H. contradiction.
  - intros id secret base turl r t0 evs0 self token_data before
           Hinit Hjson Hexp Htok Hbefore.
    unfold __init__ in Hinit.
    match type of Hinit with
    | context [_refresh_token ?p ?t ?s] =>
        pose proof (_refresh_token_events p t s) as Hevs;
        destruct (_refresh_token p t s) as [[self1 evs1] [e|u]] eqn:Href
    end; [discriminate|].
    inversion Hinit; subst self1 evs1. clear Hinit.
    unfold events_of in Hevs. simpl in Hevs.
    assert (Hposts0 : token_posts evs0 = 1%nat) by now rewrite Hevs.
    pose proof (Hstored _ _ _ _ _ _ _ _ Href Hjson Hexp) as Hexpiry.
    replace (seconds (3600 - 300)) with (seconds 3300) in Hexpiry
      by reflexivity.
    assert (Hhold : holding_until (t0 + seconds 3300) self) by now split.
    destruct (run_calls_fresh before self _ Hhold Hbefore) as [Hst Hp].
    split.
    + rewrite token_posts_app, Hposts0, Hp. reflexivity.
    + intros c w Hle.
      assert (Hcross : token_posts
                (snd (run_calls (before ++ [(c, w)]) self)) = 1%nat).
      { rewrite run_calls_app. simpl. rewrite token_posts_app, Hp, Hst.
        rewrite app_nil_r.
        change (token_posts (events_of (dispatch c w self)) = 1%nat).
        apply dispatch_stale. right. exists (t0 + seconds 3300). auto. }
      split.
      * rewrite token_posts_app, Hposts0, Hcross. reflexivity.
      * intros expiry2 after Hhold2 Hafter.
        change (before ++ (c, w) :: after)
          with (before ++ [(c, w)] ++ after).
        rewrite app_assoc, run_calls_app. simpl.
        destruct (run_calls_fresh after _ _ Hhold2 Hafter) as [_ Hp2].
        rewrite !token_posts_app, Hposts0, Hcross, Hp2. reflexivity.
Qed.

Lemma token_refresh_schedule_witness :
  token_posts
    ([TokenPost default_token_url (token_form Demo.blank)] ++
     snd (run_calls
            ([(Demo.get "/api/v1/tric/workflows", Demo.ok_world 10);
              (Demo.get "/api/v1/tric/workflows", Demo.ok_world 3299)] ++
             (Demo.get "/api/v1/tric/workflows", Demo.ok_world 3300) ::
             [(Demo.get "/api/v1/tric/workflows", Demo.ok_world 5000)])
            Demo.client)) = 2%nat.
Proof.
  destruct token_refresh_schedule as [_ [_ H]].
  assert (Hinit : __init__ "id" "secret" default_base_url default_token_url
                    (requests.Responded Demo.token_response) Demo.t0 =
                  ([TokenPost default_token_url (token_form Demo.blank)],
                   inr Demo.client)) by (vm_compute; reflexivity).
  assert (Hbefore : all_before (Demo.t0 + seconds 3300)
            [(Demo.get "/api/v1/tric/workflows", Demo.ok_world 10);
             (Demo.get "/api/v1/tric/workflows", Demo.ok_world 3299)])
    by (repeat apply Forall_cons; try apply Forall_nil;
        vm_compute; reflexivity).
  destruct (H _ _ _ _ _ _ _ _
              [("access_token", PStr "tok"); ("expires_in", PInt 3600)] _
              Hinit eq_refl eq_refl eq_refl Hbefore) as [_ H2].
  assert (Hcross : Demo.t0 + seconds 3300 <= utcnow_check (Demo.ok_world 3300))
    by (vm_compute; discriminate).
  destruct (H2 (Demo.get "/api/v1/tric/workflows") (Demo.ok_world 3300) Hcross)
    as [_ H3].
  apply (H3 (Demo.t0 + seconds 6600)).
  - split; vm_compute; reflexivity.
  - repeat apply Forall_cons; try apply Forall_nil; vm_compute; reflexivity.
Defined.


(* ================================================================= *)
(** ** Error mapping *)

(** With a body that is not JSON, or that is a JSON object, the class of
    the error is the one of the table. *)
Lemma _handle_error_class (r : requests.Response) :
  (exists e, requests.json r = inl e) \/
  (exists d, requests.json r = inr (PDict d)) ->
  exists message,
    Api {| cls := class_of_status (requests.status_code r);
           message := message;
           exceptions.status_code := Some (requests.status_code r);
           response_text := Some (requests.text r) |} = _handle_error r.
Proof.
  unfold _handle_error, class_of_status, new_error.
  intros [[e ->]|[d ->]]; simpl;
    destruct (requests.status_code r =? 400);
    destruct ((requests.status_code r =? 401)
              || (requests.status_code r =? 403));
    destruct (requests.status_code r =? 429); eauto.
Qed.

(** C2.  A 400 response whose body is the JSON array [[]] does not raise
    [ProofpointApiBadRequestError]: [_handle_error] calls [.get] on the
    decoded list, and the [AttributeError] of that call is what the caller of
    the dispatcher receives. *)
Theorem error_mapping_non_object_body :
  let response := Demo.array_error 400 in
  let w := Demo.world 10 (requests.Responded Demo.token_response)
                         (requests.Responded response) in
  400 <= requests.status_code response < 600 /\
  _handle_error response = AttributeError /\
  dispatch (Demo.get "/api/v1/tric/workflows") w Demo.client =
    (Demo.client,
     [SessionRequest "GET"
        (default_base_url ++ "/api/v1/tric/workflows")%string
        [Lit "Bearer "; Fmt (PStr "tok")] None None],
     inl AttributeError) /\
  raised_class AttributeError = None.
Proof.
  repeat split; try (vm_compute; congruence).
Qed.

(** C3, as the code has it.  A non-200 answer of the token endpoint is
    raised as [ProofpointApiAuthError] with the status and the body.  A
    transport failure on the way to the token endpoint is raised as the base
    [ProofpointApiException], without status or body, as a transport failure
    on the way to the API is; the two differ in the message only, which
    starts [Failed to obtain access token: ] for the former and
    [Request failed: ] for the latter. *)
Theorem refresh_failure_classes (post : requests.outcome)
    (utcnow : datetime.datetime) (self : ProofpointApiClient) :
  (forall r, post = requests.Responded r -> requests.status_code r <> 200 ->
     result_of (_refresh_token post utcnow self) =
     inl (new_error ProofpointApiAuthError
            [Lit "Failed to obtain access token"]
            (Some (requests.status_code r)) (Some (requests.text r)))) /\
  (forall e, post = requests.Raised e ->
     result_of (_refresh_token post utcnow self) =
     inl (new_error ProofpointApiException
            [Lit "Failed to obtain access token: "; Lit e] None None)) /\
  (forall method endpoint return_json kw w self1 evs u e,
     _ensure_valid_token w self = (self1, evs, inr u) ->
     api_endpoint w = requests.Raised e ->
     result_of (_request method endpoint return_json kw w self) =
     inl (new_error ProofpointApiException
            [Lit "Request failed: "; Lit e] None None)).
Proof.
  split; [|split].
  - intros r -> Hs. now rewrite _refresh_token_non_200.
  - intros e ->. reflexivity.
  - intros method endpoint return_json kw w self1 evs u e Hens Hapi.
    now rewrite _request_steps, Hens, Hapi.
Qed.

Lemma refresh_failure_classes_witness :
  result_of (_refresh_token (requests.Responded Demo.server_error)
               Demo.t0 Demo.blank) =
  inl (new_error ProofpointApiAuthError [Lit "Failed to obtain access token"]
         (Some 500) (Some "Internal Server Error")) /\
  result_of (_refresh_token (requests.Raised "Connection refused")
               Demo.t0 Demo.blank) =
  inl (new_error ProofpointApiException
         [Lit "Failed to obtain access token: "; Lit "Connection refused"]
         None None) /\
  result_of (dispatch (Demo.get "/api/v1/tric/workflows")
               (Demo.world 10 (requests.Responded Demo.token_response)
                              (requests.Raised "Connection refused"))
               Demo.client) =
  inl (new_error ProofpointApiException
         [Lit "Request failed: "; Lit "Connection refused"] None None).
Proof.
  split; [|split].
  - apply (proj1 (refresh_failure_classes
                    (requests.Responded Demo.server_error)
                    Demo.t0 Demo.blank) Demo.server_error eq_refl).
    vm_compute. discriminate.
  - apply (proj1 (proj2 (refresh_failure_classes
                           (requests.Raised "Connection refused")
                           Demo.t0 Demo.blank)) "Connection refused" eq_refl).
  - apply (proj2 (proj2 (refresh_failure_classes
                           (requests.Raised "Connection refused")
                           Demo.t0 Demo.client))
             "GET" "/api/v1/tric/workflows" true no_kwargs
             (Demo.world 10 (requests.Responded Demo.token_response)
                            (requests.Raised "Connection refused"))
             Demo.client [] tt "Connection refused").
    + vm_compute. reflexivity.
    + reflexivity.
Defined.

(** C3, as stated, fails: when the token endpoint cannot be reached the
    refresh raises the base class, not [ProofpointApiAuthError]. *)
Lemma refresh_transport_failure_is_not_auth :
  result_of (_refresh_token (requests.Raised "Connection refused")
               Demo.t0 Demo.blank) =
  inl (new_error ProofpointApiException
         [Lit "Failed to obtain access token: "; Lit "Connection refused"]
         None None) /\
  ~ (forall post utcnow self e,
       result_of (_refresh_token post utcnow self) = inl e ->
       raised_class e = Some ProofpointApiAuthError).
Proof.
  split; [reflexivity|].
  intro H.
  specialize (H (requests.Raised "Connection refused") Demo.t0 Demo.blank
                _ eq_refl).
  discriminate H.
Qed.

Lemma stale_later t t' self :
  t <= t' -> no_token self \/ expired_at t self ->
  no_token self \/ expired_at t' self.
Proof.
  intros Hle [H|[x [Hx Hxt]]]; [now left|].
  right. exists x. split; [assumption|lia].
Qed.

(** C4.  When the token endpoint answers with a status other than 200, the
    refresh raises [ProofpointApiAuthError] with that status and the body and
    leaves the client as it was; the constructor, whose first token fetch this
    is, raises the same error.  A call whose token step made that refresh
    sends nothing to the API, and the token step of any later call refreshes
    again. *)
Theorem failed_refresh_keeps_state (r : requests.Response)
    (utcnow : datetime.datetime) (self : ProofpointApiClient) :
  requests.status_code r <> 200 ->
  let sent := [TokenPost (token_url self) (token_form self)] in
  let err := new_error ProofpointApiAuthError
               [Lit "Failed to obtain access token"]
               (Some (requests.status_code r)) (Some (requests.text r)) in
  _refresh_token (requests.Responded r) utcnow self = (self, sent, inl err) /\
  (forall id secret base turl,
     snd (__init__ id secret base turl (requests.Responded r) utcnow)
     = inl err) /\
  (forall w, token_endpoint w = requests.Responded r ->
     no_token self \/ expired_at (utcnow_check w) self ->
     _ensure_valid_token w self = (self, sent, inl err) /\
     (forall c, dispatch c w self = (self, sent, inl err)) /\
     (forall w', utcnow_check w <= utcnow_check w' ->
        token_posts
          (events_of (_ensure_valid_token w'
                        (state_of (_ensure_valid_token w self)))) = 1%nat)).
Proof.
  intros Hs sent err.
  assert (Href : forall t s,
            _refresh_token (requests.Responded r) t s =
            (s, [TokenPost (token_url s) (token_form s)], inl err))
    by (intros; now apply _refresh_token_non_200).
  split; [apply Href|]. split.
  - intros. unfold __init__. now rewrite Href.
  - intros w Hw Hstale.
    assert (Hens : _ensure_valid_token w self = (self, sent, inl err)).
    { rewrite _ensure_valid_token_refreshes by assumption.
      rewrite Hw. apply Href. }
    split; [exact Hens|]. split.
    + intro c. unfold dispatch. rewrite _request_steps, Hens. reflexivity.
    + intros w' Hle. rewrite Hens. unfold state_of. simpl.
      apply _ensure_valid_token_posts.
      now apply (stale_later (utcnow_check w)).
Qed.

Lemma failed_refresh_keeps_state_witness :
  _refresh_token (requests.Responded Demo.server_error) Demo.t0 Demo.blank =
  (Demo.blank, [TokenPost default_token_url (token_form Demo.blank)],
   inl (new_error ProofpointApiAuthError [Lit "Failed to obtain access token"]
          (Some 500) (Some "Internal Server Error"))).
Proof.
  assert (H : requests.status_code Demo.server_error <> 200)
    by (vm_compute; discriminate).
  exact (proj1 (failed_refresh_keeps_state Demo.server_error Demo.t0
                  Demo.blank H)).
Defined.

(* ================================================================= *)
(** ** Decoding the response *)

(** C7.  Once the token step has returned and the API has answered with a
    status outside 400..599 and an empty body, a call that asks for JSON
    returns the empty dict. *)
Theorem empty_body_is_empty_mapping method endpoint kw w self self1 evs u
    (response : requests.Response) :
  _ensure_valid_token w self = (self1, evs, inr u) ->
  api_endpoint w = requests.Responded response ->
  ~ (400 <= requests.status_code response < 600) ->
  requests.content response = [] ->
  result_of (_request method endpoint true kw w self) = inr (PDict []).
Proof.
  intros Hens Hapi Hstatus Hbody.
  rewrite _request_steps, Hens, Hapi. unfold result_of. simpl.
  replace ((400 <=? requests.status_code response)
           && (requests.status_code response <? 600)) with false
    by (symmetry; apply andb_false_iff; lia).
  unfold requests.text. now rewrite Hbody.
Qed.

Lemma empty_body_is_empty_mapping_witness :
  result_of (_request "GET" "/api/v1/tric/workflows/run/7" true no_kwargs
               (Demo.ok_world 10) Demo.client) = inr (PDict []).
Proof.
  apply (empty_body_is_empty_mapping "GET" "/api/v1/tric/workflows/run/7"
           no_kwargs (Demo.ok_world 10) Demo.client Demo.client [] tt
           (Demo.empty_response 200)).
  - vm_compute. reflexivity.
  - reflexivity.
  - vm_compute. intros [H _]. now apply H.
  - reflexivity.
Defined.

(** C8.  Once the token step has returned and the API has answered with a
    status outside 400..599, [download_message_mime] returns the [content]
    of the response, the bytes as the transport holds them; [json()] is not
    called. *)
Theorem download_message_mime_raw_bytes message_id w self self1 evs u
    (response : requests.Response) :
  _ensure_valid_token w self = (self1, evs, inr u) ->
  api_endpoint w = requests.Responded response ->
  ~ (400 <= requests.status_code response < 600) ->
  result_of (download_message_mime message_id w self) =
  inr (PBytes (requests.content response)).
Proof.
  intros Hens Hapi Hstatus. unfold download_message_mime.
  rewrite _request_steps, Hens, Hapi. unfold result_of. simpl.
  replace ((400 <=? requests.status_code response)
           && (requests.status_code response <? 600)) with false
    by (symmetry; apply andb_false_iff; lia).
  reflexivity.
Qed.

Lemma download_message_mime_raw_bytes_witness :
  result_of (download_message_mime "42"
               (Demo.world 10 (requests.Responded Demo.token_response)
                              (requests.Responded Demo.eml_response))
               Demo.client) =
  inr (PBytes (list_byte_of_string "From: a@example.org")).
Proof.
  apply (download_message_mime_raw_bytes "42"
           (Demo.world 10 (requests.Responded Demo.token_response)
                          (requests.Responded Demo.eml_response))
           Demo.client Demo.client [] tt Demo.eml_response).
  - vm_compute. reflexivity.
  - reflexivity.
  - vm_compute. intros [H _]. now apply H.
Defined.

(* ================================================================= *)
(** ** Payloads *)

(** What a method built on the dispatcher sends to the API: its payload,
    once, when the token step has returned; nothing otherwise. *)
Lemma json_request_bodies method endpoint payload w self :
  request_bodies
    (events_of (_request method endpoint true (json_kwargs payload) w self)) =
  if succeeded (result_of (_ensure_valid_token w self))
  then [Some (PDict payload)] else [].
Proof.
  rewrite _request_bodies, _ensure_valid_token_bodies. reflexivity.
Qed.

(** C5.  For every filter object, of either class, the serialized filters
    are exactly the entries of the fields that are present, in field order,
    nested objects and lists included; no key is bound to [None] at any
    depth, and a key is there exactly when its field is not [None].  This is
    the value under [filters] in the payloads of [search_incidents],
    [search_messages] and [get_incident_count], and these payloads are what
    the three methods send. *)
Theorem filters_payload_present_fields (f : Filters) (start_row end_row : Z)
    (sort_params : option (list SortParam)) (w : World)
    (self : ProofpointApiClient) :
  let serialized := asdict_factory (Filters_items f) in
  let sent payload :=
    if succeeded (result_of (_ensure_valid_token w self))
    then [Some (PDict payload)] else [] in
  serialized = Spec.Filters_present f /\
  no_null_keys (PDict serialized) = true /\
  (forall k, In k (keys serialized) <->
             exists v, In (k, v) (Filters_items f) /\ v <> PNone) /\
  dict_get (search_payload (Some f) start_row end_row sort_params) "filters"
    = Some (PDict serialized) /\
  dict_get (count_payload f) "filters" = Some (PDict serialized) /\
  request_bodies
    (events_of (search_incidents (Some f) start_row end_row sort_params w self))
    = sent (search_payload (Some f) start_row end_row sort_params) /\
  request_bodies
    (events_of (search_messages (Some f) start_row end_row sort_params w self))
    = sent (search_payload (Some f) start_row end_row sort_params) /\
  request_bodies (events_of (get_incident_count f w self))
    = sent (count_payload f).
Proof.
  intros serialized sent. subst serialized sent.
  split; [apply asdict_factory_Filters|].
  split; [rewrite asdict_factory_Filters; apply Filters_present_no_null|].
  split; [intro k; apply asdict_factory_keys, Filters_items_distinct|].
  split; [apply search_payload_filters|].
  split; [reflexivity|].
  repeat split; apply json_request_bodies.
Qed.

(** C6.  [search_incidents] with a filter object whose only field is
    [source_filters=["tap"]], [start_row=0], [end_row=5] and no sort
    parameters builds, and sends, the body with [startRow], [endRow] and
    [filters], the latter with the one key [source_filters], and nothing
    else. *)
Theorem search_incidents_tap_body (w : World) (self : ProofpointApiClient) :
  let filters :=
    OfIncident {| time_range_filter := None; incident_id_filters := None;
                  other_filters := None; priority_filters := None;
                  source_filters := Some ["tap"];
                  disposition_filters := None; verdict_filters := None;
                  confidence_filters := None |} in
  let body := [ ("startRow", PInt 0); ("endRow", PInt 5);
                ("filters", PDict [("source_filters", PList [PStr "tap"])]) ] in
  search_payload (Some filters) 0 5 None = body /\
  request_bodies (events_of (search_incidents (Some filters) 0 5 None w self))
  = if succeeded (result_of (_ensure_valid_token w self))
    then [Some (PDict body)] else [].
Proof.
  intros filters body.
  assert (E : search_payload (Some filters) 0 5 None = body) by reflexivity.
  split; [exact E|].
  unfold search_incidents. rewrite json_request_bodies, E. reflexivity.
Qed.

(** C9.  The serializer drops a field of a filter object exactly when its
    value is [None].  A field set to the empty list, which is false as a
    condition, stays in the payload as a key bound to the empty list, and a
    nested time range stays with its [start] and [end] whatever these
    strings are, the empty string included. *)
Theorem empty_filter_values_are_kept (f : Filters) (k : string) (v : pyval) :
  In (k, v) (Filters_items f) ->
  let serialized := asdict_factory (Filters_items f) in
  (dict_get serialized k = None <-> v = PNone) /\
  (v = PList [] ->
   truthy v = false /\ dict_get serialized k = Some (PList [])) /\
  (forall t, v = py_TimeRangeFilter t ->
     dict_get serialized k =
     Some (PDict [("start", PStr (start t)); ("end", PStr (end_ t))])) /\
  (forall start_row end_row sort_params,
     dict_get (search_payload (Some f) start_row end_row sort_params) "filters"
     = Some (PDict serialized)).
Proof.
  intros Hin serialized. subst serialized.
  pose proof (asdict_factory_get _ _ _ (Filters_items_distinct f) Hin) as G.
  split; [|split; [|split]].
  - rewrite G. destruct v; simpl; split; congruence.
  - intros ->. split; [reflexivity|exact G].
  - intros t ->. exact G.
  - intros. apply search_payload_filters.
Qed.

Lemma empty_filter_values_are_kept_witness :
  dict_get
    (asdict_factory
       (Filters_items
          (OfIncident
             {| time_range_filter := Some {| start := ""; end_ := "" |};
                incident_id_filters := None; other_filters := None;
                priority_filters := None; source_filters := Some [];
                disposition_filters := None; verdict_filters := None;
                confidence_filters := None |})))
    "source_filters" = Some (PList []).
Proof.
  refine (proj2 (proj1 (proj2 (empty_filter_values_are_kept _
                                 "source_filters" (PList []) _)) eq_refl)).
  simpl. tauto.
Defined.

(** The same for any dataclass instance with the string [""] or the list
    [[]] in a field. *)
Lemma convert_value_keeps_empty (c : string) (fields : list (string * pyval))
    (k : string) (v : pyval) :
  NoDup (keys fields) -> In (k, v) fields -> v = PList [] \/ v = PStr "" ->
  exists d, convert_value (PData c fields) = PDict d /\ dict_get d k = Some v.
Proof.
  intros Hnd Hin Hv. exists (asdict_factory fields).
  split; [apply convert_value_dataclass|].
  rewrite (asdict_factory_get _ _ _ Hnd Hin).
  destruct Hv as [-> | ->]; reflexivity.
Qed.

(** C10.  In the message of [upload_message], [rfcMessageId] and
    [recipient_addresses] are always there with the values given; [sender],
    [subject] and [disposition] are there exactly when the argument is a
    non-empty string, so that the empty string gives the same message as an
    argument left out. *)
Theorem upload_message_optional_fields (rfc_message_id : string)
    (recipient_addresses : list string)
    (sender subject disposition : option string) :
  let message := upload_message_dict rfc_message_id recipient_addresses
                   sender subject disposition in
  let given (o : option string) (r : option pyval) :=
    match o with
    | Some s => if String.eqb s "" then r = None else r = Some (PStr s)
    | None => r = None
    end in
  dict_get message "rfcMessageId" = Some (PStr rfc_message_id) /\
  dict_get message "recipient_addresses" = Some (py_strs recipient_addresses) /\
  given sender (dict_get message "sender") /\
  given subject (dict_get message "subject") /\
  given disposition (dict_get message "disposition") /\
  upload_message_dict rfc_message_id recipient_addresses
    (Some "") subject disposition =
  upload_message_dict rfc_message_id recipient_addresses
    None subject disposition /\
  upload_message_dict rfc_message_id recipient_addresses
    sender (Some "") disposition =
  upload_message_dict rfc_message_id recipient_addresses
    sender None disposition /\
  upload_message_dict rfc_message_id recipient_addresses
    sender subject (Some "") =
  upload_message_dict rfc_message_id recipient_addresses
    sender subject None /\
  (forall incident_id,
     dict_get (upload_message_payload incident_id rfc_message_id
                 recipient_addresses sender subject disposition) "message"
     = Some (PDict message)) /\
  (forall incident_id w self,
     request_bodies
       (events_of (upload_message incident_id rfc_message_id
                     recipient_addresses sender subject disposition w self))
     = if succeeded (result_of (_ensure_valid_token w self))
       then [Some (PDict (upload_message_payload incident_id rfc_message_id
                            recipient_addresses sender subject disposition))]
       else []).
Proof.
  intros message given. subst message given.
  repeat match goal with |- _ /\ _ => split end;
    try (intros; apply json_request_bodies);
    unfold upload_message_dict;
    destruct sender as [[|a s]|], subject as [[|b t]|],
             disposition as [[|c u]|];
    reflexivity.
Qed.

(* ================================================================= *)
(** ** More on the token manager *)

(** The three shapes of the client after a refresh: untouched when the
    refresh raises before the token is read, the token alone replaced when it
    raises after that, token and expiry replaced when it returns. *)
Lemma _refresh_token_state post utcnow self :
  let o := _refresh_token post utcnow self in
  (state_of o = self /\ succeeded (result_of o) = false) \/
  (exists tok, state_of o = set_access_token tok self /\
               succeeded (result_of o) = false) \/
  (exists tok x, state_of o = set_token_expiry (Some x)
                                (set_access_token tok self) /\
                 succeeded (result_of o) = true).
Proof.
  unfold _refresh_token. run_m.
  destruct post as [r|e]; [|now left].
  destruct (negb (requests.status_code r =? 200)); [now left|].
  destruct (requests.json r) as [e|token_data]; [now left|].
  unfold bind, lift, update.
  destruct (subscript token_data "access_token") as [|tok]; [now left|].
  destruct (py_get token_data "expires_in" (PInt 3600)) as [|expires_in];
    [right; left; now exists tok|].
  destruct (py_sub expires_in 300) as [|secs];
    [right; left; now exists tok|].
  destruct (or_overflow (datetime.timedelta_seconds secs)) as [|delta];
    [right; left; now exists tok|].
  destruct (or_overflow (datetime.add utcnow delta)) as [|x];
    [right; left; now exists tok|].
  right; right. now exists tok, x.
Qed.

Lemma _refresh_token_config post utcnow self :
  same_config (state_of (_refresh_token post utcnow self)) self.
Proof.
  destruct (_refresh_token_state post utcnow self)
    as [[-> _]|[[tok [-> _]]|[tok [x [-> _]]]]]; repeat split.
Qed.

Lemma _ensure_valid_token_config w self :
  same_config (state_of (_ensure_valid_token w self)) self.
Proof.
  destruct (token_state_cases (utcnow_check w) self) as [H|[x [H Hlt]]].
  - rewrite _ensure_valid_token_refreshes by exact H.
    apply _refresh_token_config.
  - rewrite (_ensure_valid_token_fresh w self x) by assumption.
    repeat split.
Qed.

(** The refresh returns when the token document is well formed. *)
Lemma _refresh_token_well_formed response utcnow self token_data tok n :
  requests.status_code response = 200 ->
  requests.json response = inr (PDict token_data) ->
  dict_get token_data "access_token" = Some tok ->
  dict_get_default token_data "expires_in" (PInt 3600) = PInt n ->
  -999999999 <= (n - 300) / 86400 <= 999999999 ->
  0 <= utcnow + seconds (n - 300) <= datetime.max ->
  _refresh_token (requests.Responded response) utcnow self =
  (set_token_expiry (Some (utcnow + seconds (n - 300)))
     (set_access_token tok self),
   [TokenPost (token_url self) (token_form self)], inr tt).
Proof.
  intros Hs Hj Htok Hexp Hdays Hrange.
  unfold _refresh_token. run_m.
  rewrite Hs, Hj. simpl. run_m. rewrite Htok. simpl. rewrite Hexp. simpl.
  unfold datetime.timedelta_seconds.
  replace ((-999999999 <=? (n - 300) / 86400)
           && ((n - 300) / 86400 <=? 999999999)) with true
    by (symmetry; apply andb_true_iff; split; apply Z.leb_le; lia).
  simpl. unfold datetime.add, datetime.in_range.
  fold (seconds (n - 300)).
  replace ((0 <=? utcnow + seconds (n - 300))
           && (utcnow + seconds (n - 300) <=? datetime.max)) with true
    by (symmetry; apply andb_true_iff; split; apply Z.leb_le; lia).
  reflexivity.
Qed.

(** X1.  Construction succeeds on a well-formed token document: given a
    200 answer whose document is an object with an [access_token] and an
    integer [expires_in] (3600 when the key is missing) that keeps the expiry
    within the range of [datetime], [__init__] posts the credentials once to
    the token URL and returns a client with the configuration given, the
    token of the document and the expiry [utcnow + (expires_in - 300)]
    seconds. *)
Theorem constructor_returns_client id secret base turl response utcnow
    token_data tok n :
  requests.status_code response = 200 ->
  requests.json response = inr (PDict token_data) ->
  dict_get token_data "access_token" = Some tok ->
  dict_get_default token_data "expires_in" (PInt 3600) = PInt n ->
  -999999999 <= (n - 300) / 86400 <= 999999999 ->
  0 <= utcnow + seconds (n - 300) <= datetime.max ->
  __init__ id secret base turl (requests.Responded response) utcnow =
  ([TokenPost turl [ ("grant_type", PStr "client_credentials");
                     ("client_id", PStr id);
                     ("client_secret", PStr secret) ]],
   inr {| base_url := base; token_url := turl;
          client_id := id; client_secret := secret;
          _access_token := tok;
          _token_expiry := Some (utcnow + seconds (n - 300)) |}).
Proof.
  intros Hs Hj Htok Hexp Hdays Hrange. unfold __init__.
  rewrite (_refresh_token_well_formed _ _ _ _ _ _ Hs Hj Htok Hexp Hdays Hrange).
  reflexivity.
Qed.

Lemma constructor_returns_client_witness :
  __init__ "id" "secret" default_base_url default_token_url
    (requests.Responded Demo.token_response) Demo.t0 =
  ([TokenPost default_token_url
      [ ("grant_type", PStr "client_credentials");
        ("client_id", PStr "id"); ("client_secret", PStr "secret") ]],
   inr {| base_url := default_base_url; token_url := default_token_url;
          client_id := "id"; client_secret := "secret";
          _access_token := PStr "tok";
          _token_expiry := Some (Demo.t0 + seconds (3600 - 300)) |}).
Proof.
  apply (constructor_returns_client "id" "secret" default_base_url
           default_token_url Demo.token_response Demo.t0
           [("access_token", PStr "tok"); ("expires_in", PInt 3600)]
           (PStr "tok") 3600);
    try reflexivity; vm_compute; split; discriminate.
Defined.



(** X3.  A call that has to refresh sends the API request with the token
    just obtained, not with the one it held: when the token step refreshes
    and returns, the call makes the token request and then one API request
    whose [Authorization] header is [Bearer] followed by the [access_token]
    of the token document. *)
Theorem refreshed_token_is_sent c w self response token_data tok u :
  no_token self \/ expired_at (utcnow_check w) self ->
  token_endpoint w = requests.Responded response ->
  result_of (_ensure_valid_token w self) = inr u ->
  requests.json response = inr (PDict token_data) ->
  dict_get token_data "access_token" = Some tok ->
  events_of (dispatch c w self) =
  [TokenPost (token_url self) (token_form self);
   SessionRequest (method c) (base_url self ++ endpoint c)%string
     [Lit "Bearer "; Fmt tok]
     (kw_params (request_kwargs c)) (kw_json (request_kwargs c))].
Proof.
  intros Hstale Hw Hres Hj Htok.
  unfold dispatch. rewrite _request_steps.
  rewrite _ensure_valid_token_refreshes in * by exact Hstale.
  rewrite Hw in *.
  destruct (_refresh_token (requests.Responded response) (utcnow_refresh w)
              self) as [[self1 evs] [e|u']] eqn:Href;
    [discriminate|].
  pose proof (_refresh_token_events (requests.Responded response)
                (utcnow_refresh w) self) as Hevs.
  rewrite Href in Hevs. unfold events_of in Hevs. simpl in Hevs. subst evs.
  apply _refresh_token_returns in Href
    as (d & tok' & secs & _ & Hd & Htok' & _ & ->).
  rewrite Hj in Hd. inversion Hd; subst d.
  rewrite Htok in Htok'. inversion Htok'; subst tok'.
  reflexivity.
Qed.

Lemma refreshed_token_is_sent_witness :
  events_of (dispatch (Demo.get "/api/v1/tric/workflows")
               (Demo.ok_world 3300) Demo.client) =
  [TokenPost default_token_url (token_form Demo.client);
   SessionRequest "GET" (default_base_url ++ "/api/v1/tric/workflows")%string
     [Lit "Bearer "; Fmt (PStr "tok")] None None].
Proof.
  apply (refreshed_token_is_sent (Demo.get "/api/v1/tric/workflows")
           (Demo.ok_world 3300) Demo.client Demo.token_response
           [("access_token", PStr "tok"); ("expires_in", PInt 3600)]
           (PStr "tok") tt); try reflexivity.
  right. exists (Demo.t0 + seconds 3300). split; [reflexivity|].
  vm_compute. discriminate.
Defined.

(** X4.  A 200 answer of the token endpoint whose document lacks
    [access_token] makes the refresh raise [KeyError], and one whose document
    is not an object makes it raise [TypeError]; in both cases the client is
    left as it was. *)
Theorem token_document_without_token response utcnow self :
  requests.status_code response = 200 ->
  (forall d, requests.json response = inr (PDict d) ->
     dict_get d "access_token" = None ->
     _refresh_token (requests.Responded response) utcnow self =
     (self, [TokenPost (token_url self) (token_form self)],
      inl (KeyError "access_token"))) /\
  (forall v, requests.json response = inr v -> (forall d, v <> PDict d) ->
     _refresh_token (requests.Responded response) utcnow self =
     (self, [TokenPost (token_url self) (token_form self)], inl TypeError)).
Proof.
  intro Hs. split.
  - intros d Hj Hd. unfold _refresh_token. run_m.
    rewrite Hs, Hj. simpl. run_m. now rewrite Hd.
  - intros v Hj Hv. unfold _refresh_token. run_m.
    rewrite Hs, Hj. simpl.
    destruct v; try reflexivity. now elim (Hv d).
Qed.

Lemma token_document_without_token_witness :
  _refresh_token
    (requests.Responded Demo.no_token_document) Demo.t0 Demo.client =
  (Demo.client, [TokenPost default_token_url (token_form Demo.client)],
   inl (KeyError "access_token")).
Proof.
  apply (proj1 (token_document_without_token
                  Demo.no_token_document Demo.t0 Demo.client
                  eq_refl) [] eq_refl eq_refl).
Defined.

(** X5.  When the token document has no [expires_in], the lifetime is taken
    to be 3600 seconds: a refresh that returns at [utcnow] stores the expiry
    [utcnow + 3300] seconds. *)
Theorem expires_in_defaults_to_an_hour response utcnow self self' evs u
    token_data :
  _refresh_token (requests.Responded response) utcnow self
    = (self', evs, inr u) ->
  requests.json response = inr (PDict token_data) ->
  dict_get token_data "expires_in" = None ->
  _token_expiry self' = Some (utcnow + seconds 3300).
Proof.
  intros Href Hj He.
  apply _refresh_token_returns in Href
    as (d & tok & secs & _ & Hd & _ & Hsub & ->).
  rewrite Hj in Hd. inversion Hd; subst d.
  unfold dict_get_default in Hsub. rewrite He in Hsub.
  simpl in Hsub. inversion Hsub; subst secs. reflexivity.
Qed.

Lemma expires_in_defaults_to_an_hour_witness :
  _token_expiry
    (set_token_expiry (Some (Demo.t0 + seconds 3300))
       (set_access_token (PStr "tok") Demo.blank)) =
  Some (Demo.t0 + seconds 3300).
Proof.
  apply (expires_in_defaults_to_an_hour Demo.no_expiry_document
           Demo.t0 Demo.blank _
           [TokenPost default_token_url (token_form Demo.blank)] tt
           [("access_token", PStr "tok")]); reflexivity.
Defined.

(** X6.  The stored expiry changes only when a refresh returns.  A refresh
    that raises leaves the expiry as it was; when it raises because
    [expires_in] is not a number, the [access_token] of the document has
    already replaced the stored token, so the client then holds the new token
    with the old expiry. *)
Theorem failed_refresh_keeps_expiry post utcnow self :
  (forall e, result_of (_refresh_token post utcnow self) = inl e ->
     _token_expiry (state_of (_refresh_token post utcnow self))
     = _token_expiry self) /\
  (forall response d tok v,
     post = requests.Responded response ->
     requests.status_code response = 200 ->
     requests.json response = inr (PDict d) ->
     dict_get d "access_token" = Some tok ->
     dict_get d "expires_in" = Some v -> not_a_number v ->
     _refresh_token post utcnow self =
     (set_access_token tok self,
      [TokenPost (token_url self) (token_form self)], inl TypeError)).
Proof.
  split.
  - intros e He.
    destruct (_refresh_token_state post utcnow self)
      as [[-> _]|[[tok [-> _]]|[tok [x [_ Hok]]]]]; try reflexivity.
    rewrite He in Hok. discriminate.
  - intros response d tok v -> Hs Hj Htok Hv Hnum.
    unfold _refresh_token. run_m. rewrite Hs, Hj. simpl. run_m.
    rewrite Htok. simpl. unfold dict_get_default. rewrite Hv.
    destruct v; simpl in Hnum; try contradiction; reflexivity.
Qed.

Lemma failed_refresh_keeps_expiry_witness :
  _refresh_token (requests.Responded Demo.text_expiry_document)
    Demo.t0 Demo.client =
  (set_access_token (PStr "new") Demo.client,
   [TokenPost default_token_url (token_form Demo.client)], inl TypeError).
Proof.
  apply (proj2 (failed_refresh_keeps_expiry _ Demo.t0 Demo.client)
           Demo.text_expiry_document
           [("access_token", PStr "new"); ("expires_in", PStr "3600")]
           (PStr "new") (PStr "3600") eq_refl eq_refl eq_refl eq_refl eq_refl).
  exact I.
Defined.

(** X7.  A token declared to live 300 seconds or less is never reused: the
    expiry stored by the refresh is not after the time of the refresh, so the
    token step of every later call refreshes again. *)
Theorem short_lived_token_is_never_reused response utcnow self self' evs u
    token_data n w :
  _refresh_token (requests.Responded response) utcnow self
    = (self', evs, inr u) ->
  requests.json response = inr (PDict token_data) ->
  dict_get_default token_data "expires_in" (PInt 3600) = PInt n ->
  n <= 300 ->
  utcnow <= utcnow_check w ->
  token_posts (events_of (_ensure_valid_token w self')) = 1%nat.
Proof.
  intros Href Hj He Hn Hlater.
  apply _refresh_token_returns in Href
    as (d & tok & secs & _ & Hd & _ & Hsub & ->).
  rewrite Hj in Hd. inversion Hd; subst d.
  rewrite He in Hsub. simpl in Hsub. inversion Hsub; subst secs.
  apply _ensure_valid_token_posts. right.
  exists (utcnow + seconds (n - 300)). split; [reflexivity|].
  unfold seconds. lia.
Qed.

Lemma short_lived_token_is_never_reused_witness :
  token_posts
    (events_of
       (_ensure_valid_token (Demo.ok_world 1)
          (set_token_expiry (Some (Demo.t0 + seconds (60 - 300)))
             (set_access_token (PStr "tok") Demo.blank)))) = 1%nat.
Proof.
  apply (short_lived_token_is_never_reused Demo.short_document
           Demo.t0 Demo.blank _
           [TokenPost default_token_url (token_form Demo.blank)] tt
           [("access_token", PStr "tok"); ("expires_in", PInt 60)] 60
           (Demo.ok_world 1)); try reflexivity;
    vm_compute; discriminate.
Defined.

(* ================================================================= *)
(** ** More on the dispatcher and on sequences of calls *)

Lemma same_config_trans a b c :
  same_config a b -> same_config b c -> same_config a c.
Proof.
  unfold same_config. intuition congruence.
Qed.

Lemma _ensure_valid_token_fails w self :
  token_endpoint_fails w ->
  no_token self \/ expired_at (utcnow_check w) self ->
  exists e, _ensure_valid_token w self =
            (self, [TokenPost (token_url self) (token_form self)], inl e).
Proof.
  intros Hfail Hstale.
  rewrite _ensure_valid_token_refreshes by exact Hstale.
  unfold token_endpoint_fails in Hfail.
  destruct (token_endpoint w) as [r|e].
  - rewrite _refresh_token_non_200 by exact Hfail. eauto.
  - rewrite _refresh_token_transport. eauto.
Qed.

Lemma api_requests_app (a b : list Event) :
  api_requests (a ++ b) = (api_requests a + api_requests b)%nat.
Proof.
  unfold api_requests, request_bodies. now rewrite flat_map_app, length_app.
Qed.

(** X8.  One call makes at most one token request and at most one API
    request, in this order and nothing else; the API request is made exactly
    when the token step has returned, and it goes to [base_url + endpoint]
    with the token that the client holds after the token step. *)
Theorem call_makes_at_most_two_requests c w self :
  let token_step := _ensure_valid_token w self in
  exists posts reqs,
    events_of (dispatch c w self) = posts ++ reqs /\
    (posts = [] \/ posts = [TokenPost (token_url self) (token_form self)]) /\
    reqs = (if succeeded (result_of token_step)
            then [SessionRequest (method c)
                    (base_url self ++ endpoint c)%string
                    [Lit "Bearer "; Fmt (_access_token (state_of token_step))]
                    (kw_params (request_kwargs c))
                    (kw_json (request_kwargs c))]
            else []).
Proof.
  intro token_step. subst token_step.
  unfold dispatch. rewrite _request_steps.
  pose proof (_ensure_valid_token_config w self) as [Hbase _].
  assert (Hposts : events_of (_ensure_valid_token w self) = [] \/
                   events_of (_ensure_valid_token w self) =
                   [TokenPost (token_url self) (token_form self)]).
  { destruct (token_state_cases (utcnow_check w) self) as [H|[x [H Hlt]]].
    - right. rewrite _ensure_valid_token_refreshes by exact H.
      apply _refresh_token_events.
    - left. now rewrite (_ensure_valid_token_fresh w self x). }
  destruct (_ensure_valid_token w self) as [[self1 evs] [e|u]];
    unfold events_of, state_of, result_of in *; simpl in *.
  - exists evs, []. now rewrite app_nil_r.
  - exists evs. eexists. split; [reflexivity|]. split; [exact Hposts|].
    now rewrite Hbase.
Qed.

(** X9.  Over any sequence of calls, the client makes no more token
    requests and no more API requests than there are calls: nothing is
    retried. *)
Theorem no_call_is_retried (calls : list (Request * World)) self :
  (token_posts (snd (run_calls calls self)) <= List.length calls)%nat /\
  (api_requests (snd (run_calls calls self)) <= List.length calls)%nat.
Proof.
  revert self. induction calls as [|[c w] t IH]; intro self; simpl.
  - split; apply Nat.le_refl.
  - destruct (IH (state_of (dispatch c w self))) as [IH1 IH2].
    rewrite token_posts_app, api_requests_app.
    assert (P : (token_posts (events_of (dispatch c w self)) <= 1)%nat).
    { unfold dispatch. rewrite _request_token_posts.
      destruct (_ensure_valid_token_posts w self) as [H1 H0].
      destruct (token_state_cases (utcnow_check w) self) as [H|[x [Hh Hlt]]].
      - rewrite (H1 H). apply Nat.le_refl.
      - rewrite (H0 (fresh_not_stale _ _ _ Hh Hlt)). auto. }
    assert (R : (api_requests (events_of (dispatch c w self)) <= 1)%nat).
    { unfold api_requests, dispatch.
      rewrite _request_bodies, _ensure_valid_token_bodies.
      destruct (succeeded _); simpl; auto. }
    split; lia.
Qed.

(** X10.  No sequence of calls changes the configuration of the client:
    base URL, token URL, client id and client secret stay as constructed. *)
Theorem calls_keep_the_configuration (calls : list (Request * World)) self :
  same_config (fst (run_calls calls self)) self.
Proof.
  revert self. induction calls as [|[c w] t IH]; intro self; simpl.
  - repeat split.
  - eapply same_config_trans; [apply IH|].
    unfold dispatch. rewrite _request_state.
    apply _ensure_valid_token_config.
Qed.

(** X11.  While the token endpoint issues no token (it cannot be reached
    or answers with a status other than 200), every call of a client whose
    token is missing or expired makes one token request and none to the API,
    and leaves the client as it was. *)
Theorem token_endpoint_down (calls : list (Request * World)) self t :
  no_token self \/ expired_at t self ->
  Forall (fun cw => t <= utcnow_check (snd cw) /\
                    token_endpoint_fails (snd cw)) calls ->
  fst (run_calls calls self) = self /\
  token_posts (snd (run_calls calls self)) = List.length calls /\
  api_requests (snd (run_calls calls self)) = 0%nat.
Proof.
  intros Hstale Hall.
  induction Hall as [|[c w] rest [Hle Hfail] _ IH]; [now repeat split|].
  simpl in *.
  destruct (_ensure_valid_token_fails w self Hfail
              (stale_later _ _ _ Hle Hstale)) as [e Hens].
  assert (Hd : dispatch c w self =
               (self, [TokenPost (token_url self) (token_form self)], inl e))
    by (unfold dispatch; now rewrite _request_steps, Hens).
  rewrite Hd. unfold state_of, events_of. simpl.
  destruct IH as (IH1 & IH2 & IH3). repeat split; try assumption.
  - change (TokenPost (token_url self) (token_form self)
              :: snd (run_calls rest self))
      with ([TokenPost (token_url self) (token_form self)]
              ++ snd (run_calls rest self)).
    rewrite token_posts_app, IH2. reflexivity.
Qed.

Lemma token_endpoint_down_witness :
  fst (run_calls Demo.outage Demo.client) = Demo.client /\
  token_posts (snd (run_calls Demo.outage Demo.client))
    = List.length Demo.outage /\
  api_requests (snd (run_calls Demo.outage Demo.client)) = 0%nat.
Proof.
  apply (token_endpoint_down Demo.outage Demo.client
           (Demo.t0 + seconds 3300)).
  - right. exists (Demo.t0 + seconds 3300). split; [reflexivity|].
    apply Z.le_refl.
  - repeat apply Forall_cons; try apply Forall_nil; split;
      vm_compute; try discriminate; exact I.
Defined.

Lemma _ensure_valid_token_same_inputs w w' self :
  utcnow_check w = utcnow_check w' ->
  token_endpoint w = token_endpoint w' ->
  utcnow_refresh w = utcnow_refresh w' ->
  _ensure_valid_token w self = _ensure_valid_token w' self.
Proof.
  intros H1 H2 H3. unfold _ensure_valid_token. now rewrite H1, H2, H3.
Qed.

(** X12.  What the API answers has no effect on the client or on what is
    sent: two calls that differ only in the answer of the API leave the same
    client and make the same transport calls, and the client after a call is
    the client after its token step.  In particular a 401 or 403 from the
    API neither drops the token nor starts a refresh. *)
Theorem api_answer_never_changes_client method endpoint return_json kw
    w w' self :
  utcnow_check w = utcnow_check w' ->
  token_endpoint w = token_endpoint w' ->
  utcnow_refresh w = utcnow_refresh w' ->
  state_of (_request method endpoint return_json kw w self) =
    state_of (_request method endpoint return_json kw w' self) /\
  events_of (_request method endpoint return_json kw w self) =
    events_of (_request method endpoint return_json kw w' self) /\
  state_of (_request method endpoint return_json kw w self) =
    state_of (_ensure_valid_token w self).
Proof.
  intros H1 H2 H3.
  rewrite !_request_steps.
  rewrite (_ensure_valid_token_same_inputs w w' self H1 H2 H3).
  destruct (_ensure_valid_token w' self) as [[self1 evs] [e|u]];
    repeat split.
Qed.

Lemma api_answer_never_changes_client_witness :
  state_of (_request "GET" "/api/v1/tric/workflows" true no_kwargs
              (Demo.ok_world 10) Demo.client) =
  state_of (_request "GET" "/api/v1/tric/workflows" true no_kwargs
              (Demo.world 10 (requests.Responded Demo.token_response)
                 (requests.Responded (Demo.object_error 401)))
              Demo.client).
Proof.
  apply (proj1 (api_answer_never_changes_client "GET"
                  "/api/v1/tric/workflows" true no_kwargs (Demo.ok_world 10)
                  (Demo.world 10 (requests.Responded Demo.token_response)
                     (requests.Responded (Demo.object_error 401)))
                  Demo.client eq_refl eq_refl eq_refl)).
Defined.

(* ================================================================= *)
(** ** More on error mapping and decoding *)

(** X13.  When the API answers with a status in 400..599 and a body that is
    not JSON or is a JSON object, the call raises one of the client's errors;
    the error carries the status and the body text, and its class is decided
    by the status alone: [ProofpointApiBadRequestError] exactly for 400,
    [ProofpointApiAuthError] exactly for 401 and 403,
    [ProofpointApiRateLimitError] exactly for 429, and the base
    [ProofpointApiException] exactly for every other status. *)
Theorem error_status_raises_typed_error method endpoint return_json kw w
    self self1 evs u (response : requests.Response) :
  _ensure_valid_token w self = (self1, evs, inr u) ->
  api_endpoint w = requests.Responded response ->
  400 <= requests.status_code response < 600 ->
  (forall v, requests.json response = inr v -> exists d, v = PDict d) ->
  let s := requests.status_code response in
  exists err,
    result_of (_request method endpoint return_json kw w self)
      = inl (Api err) /\
    exceptions.status_code err = Some s /\
    response_text err = Some (requests.text response) /\
    (cls err = ProofpointApiBadRequestError <-> s = 400) /\
    (cls err = ProofpointApiAuthError <-> s = 401 \/ s = 403) /\
    (cls err = ProofpointApiRateLimitError <-> s = 429) /\
    (cls err = ProofpointApiException <->
     s <> 400 /\ s <> 401 /\ s <> 403 /\ s <> 429).
Proof.
  intros Hens Hapi Hs Hbody s.
  assert (Hshape : (exists e, requests.json response = inl e) \/
                   (exists d, requests.json response = inr (PDict d))).
  { destruct (requests.json response) as [e|v] eqn:Hj; [eauto|].
    destruct (Hbody v eq_refl) as [d ->]. eauto. }
  destruct (_handle_error_class response Hshape) as [msg Herr].
  rewrite _request_steps, Hens, Hapi. unfold result_of. simpl.
  replace ((400 <=? requests.status_code response)
           && (requests.status_code response <? 600)) with true
    by (symmetry; apply andb_true_iff; split;
        [apply Z.leb_le|apply Z.ltb_lt]; lia).
  rewrite <- Herr. eexists. split; [reflexivity|]. simpl.
  fold s. split; [reflexivity|]. split; [reflexivity|].
  unfold class_of_status.
  destruct (Z.eqb_spec s 400), (Z.eqb_spec s 401), (Z.eqb_spec s 403),
           (Z.eqb_spec s 429); simpl;
    repeat split; intros; try discriminate; try lia; try tauto.
Qed.

Lemma error_status_raises_typed_error_witness :
  exists err,
    result_of (_request "GET" "/api/v1/tric/workflows" true no_kwargs
                 (Demo.world 10 (requests.Responded Demo.token_response)
                    (requests.Responded (Demo.object_error 429)))
                 Demo.client) = inl (Api err) /\
    exceptions.status_code err = Some 429 /\
    response_text err =
      Some (requests.text (Demo.object_error 429)) /\
    (cls err = ProofpointApiBadRequestError <-> 429 = 400) /\
    (cls err = ProofpointApiAuthError <-> 429 = 401 \/ 429 = 403) /\
    (cls err = ProofpointApiRateLimitError <-> 429 = 429) /\
    (cls err = ProofpointApiException <->
     429 <> 400 /\ 429 <> 401 /\ 429 <> 403 /\ 429 <> 429).
Proof.
  apply (error_status_raises_typed_error "GET" "/api/v1/tric/workflows" true
           no_kwargs
           (Demo.world 10 (requests.Responded Demo.token_response)
              (requests.Responded (Demo.object_error 429)))
           Demo.client Demo.client [] tt (Demo.object_error 429)).
  - vm_compute. reflexivity.
  - reflexivity.
  - vm_compute. split; [discriminate|reflexivity].
  - intros v Hv. inversion Hv. eauto.
Defined.

(** X14.  The message of the error raised for an error status is the
    [errorMessage] of the body when the body is a JSON object with that key,
    whatever kind of value it is, and the body text when the key is missing
    or the body is not JSON; for a status other than 400, 401, 403 and 429
    it is prefixed with [An unknown error occurred: ]. *)
Theorem error_message_comes_from_body method endpoint return_json kw w
    self self1 evs u (response : requests.Response) :
  _ensure_valid_token w self = (self1, evs, inr u) ->
  api_endpoint w = requests.Responded response ->
  400 <= requests.status_code response < 600 ->
  let s := requests.status_code response in
  let shown m :=
    if (s =? 400) || (s =? 401) || (s =? 403) || (s =? 429)
    then [Fmt m] else [Lit "An unknown error occurred: "; Fmt m] in
  let raised m :=
    exists err,
      result_of (_request method endpoint return_json kw w self)
        = inl (Api err) /\ message err = shown m in
  (forall d m, requests.json response = inr (PDict d) ->
     dict_get d "errorMessage" = Some m -> raised m) /\
  (forall d, requests.json response = inr (PDict d) ->
     dict_get d "errorMessage" = None ->
     raised (PStr (requests.text response))) /\
  (forall e, requests.json response = inl e ->
     raised (PStr (requests.text response))).
Proof.
  intros Hens Hapi Hs s shown raised. subst raised shown.
  assert (Hres : result_of (_request method endpoint return_json kw w self)
                 = inl (_handle_error response)).
  { rewrite _request_steps, Hens, Hapi. unfold result_of. simpl.
    replace ((400 <=? requests.status_code response)
             && (requests.status_code response <? 600)) with true
      by (symmetry; apply andb_true_iff; split;
          [apply Z.leb_le|apply Z.ltb_lt]; lia).
    reflexivity. }
  rewrite Hres. unfold _handle_error, new_error. fold s.
  repeat split.
  - intros d m Hj Hm. rewrite Hj. simpl. unfold dict_get_default.
    rewrite Hm.
    destruct (s =? 400), (s =? 401), (s =? 403), (s =? 429); simpl;
      eexists; split; reflexivity.
  - intros d Hj Hm. rewrite Hj. simpl. unfold dict_get_default.
    rewrite Hm.
    destruct (s =? 400), (s =? 401), (s =? 403), (s =? 429); simpl;
      eexists; split; reflexivity.
  - intros e Hj. rewrite Hj.
    destruct (s =? 400), (s =? 401), (s =? 403), (s =? 429); simpl;
      eexists; split; reflexivity.
Qed.

Lemma error_message_comes_from_body_witness :
  exists err,
    result_of (_request "GET" "/api/v1/tric/workflows" true no_kwargs
                 (Demo.world 10 (requests.Responded Demo.token_response)
                    (requests.Responded (Demo.object_error 400)))
                 Demo.client) = inl (Api err) /\
    message err = [Fmt (PStr "bad filter")].
Proof.
  assert (Hs : 400 <= requests.status_code (Demo.object_error 400) < 600)
    by (vm_compute; split; [discriminate|reflexivity]).
  exact (proj1 (error_message_comes_from_body "GET" "/api/v1/tric/workflows"
                  true no_kwargs
                  (Demo.world 10 (requests.Responded Demo.token_response)
                     (requests.Responded (Demo.object_error 400)))
                  Demo.client Demo.client [] tt (Demo.object_error 400)
                  eq_refl eq_refl Hs)
           [("errorMessage", PStr "bad filter")] (PStr "bad filter")
           eq_refl eq_refl).
Defined.

(** X15.  When the API answers with a status outside 400..599, 1xx and 3xx
    included, and a body that is not empty and decodes as JSON, a call that
    asks for JSON returns the decoded document as it is, whatever its
    type. *)
Theorem json_body_is_returned method endpoint kw w self self1 evs u
    (response : requests.Response) (v : pyval) :
  _ensure_valid_token w self = (self1, evs, inr u) ->
  api_endpoint w = requests.Responded response ->
  ~ (400 <= requests.status_code response < 600) ->
  requests.text response <> "" ->
  requests.json response = inr v ->
  result_of (_request method endpoint true kw w self) = inr v.
Proof.
  intros Hens Hapi Hs Htext Hj.
  rewrite _request_steps, Hens, Hapi. unfold result_of. simpl.
  replace ((400 <=? requests.status_code response)
           && (requests.status_code response <? 600)) with false
    by (symmetry; apply andb_false_iff; lia).
  apply String.eqb_neq in Htext. rewrite Htext, Hj. reflexivity.
Qed.

Lemma json_body_is_returned_witness :
  result_of (_request "POST" "/api/v1/tric/incidents/count" true no_kwargs
               (Demo.world 10 (requests.Responded Demo.token_response)
                  (requests.Responded Demo.count_response))
               Demo.client) = inr (PDict [("count", PInt 7)]).
Proof.
  apply (json_body_is_returned "POST" "/api/v1/tric/incidents/count"
           no_kwargs
           (Demo.world 10 (requests.Responded Demo.token_response)
              (requests.Responded Demo.count_response))
           Demo.client Demo.client [] tt Demo.count_response).
  - vm_compute. reflexivity.
  - reflexivity.
  - vm_compute. intros [H _]. now apply H.
  - vm_compute. discriminate.
  - reflexivity.
Defined.

(* ================================================================= *)
(** ** More on the serializer *)

(** X16.  Serializing is idempotent: a document that [convert_value] has
    produced is left unchanged by a second pass. *)
Theorem convert_value_idempotent (v : pyval) :
  convert_value (convert_value v) = convert_value v.
Proof.
  induction v as [| b | n | s | b | l IH | d IH | c d IH]
    using pyval_nested_ind; try reflexivity.
  simpl. f_equal. rewrite map_map. apply map_ext_in.
  rewrite Forall_forall in IH. exact IH.
Qed.

(** X17.  For any tree of dataclass instances, lists and scalars, however
    deep, the serialized document binds no key to [None]; the same holds for
    the dict that [asdict_factory] builds from the items of such values. *)
Theorem serializer_leaves_no_null_key :
  (forall v, value_object v = true ->
     no_null_keys (convert_value v) = true) /\
  (forall data,
     forallb (fun kv => value_object (snd kv)) data = true ->
     no_null_keys (PDict (asdict_factory data)) = true).
Proof.
  split; [exact convert_value_no_null_keys|].
  intros data H. rewrite <- (convert_value_dataclass "" data).
  apply convert_value_no_null_keys. now rewrite value_object_fields.
Qed.

Lemma serializer_leaves_no_null_key_witness :
  no_null_keys
    (convert_value
       (PData "Page"
          [ ("filters",
             py_Filters
               (OfIncident
                  {| time_range_filter := Some {| start := "a"; end_ := "b" |};
                     incident_id_filters := None; other_filters := None;
                     priority_filters := None;
                     source_filters := Some ["tap"];
                     disposition_filters := None; verdict_filters := None;
                     confidence_filters := None |}));
            ("sort", PList [PData "SortParam" [("colId", PNone)]]) ]))
  = true.
Proof.
  apply (proj1 serializer_leaves_no_null_key). vm_compute. reflexivity.
Defined.

(** X18.  What the serializer does not clean: a plain dict is returned as
    it is, [None] values included, also when it is the value of a field; and
    a [None] that is an element of a list stays in the list, which keeps its
    length. *)
Theorem serializer_keeps_none_in_dicts_and_lists :
  (forall d, convert_value (PDict d) = PDict d) /\
  (forall data k d, NoDup (keys data) -> In (k, PDict d) data ->
     dict_get (asdict_factory data) k = Some (PDict d)) /\
  (forall l i, nth_error l i = Some PNone ->
     exists l', convert_value (PList l) = PList l' /\
                List.length l' = List.length l /\
                nth_error l' i = Some PNone).
Proof.
  split; [reflexivity|]. split.
  - intros data k d Hnd Hin.
    now rewrite (asdict_factory_get _ _ _ Hnd Hin).
  - intros l i Hi. exists (map convert_value l).
    split; [reflexivity|]. split; [apply length_map|].
    rewrite nth_error_map, Hi. reflexivity.
Qed.

Lemma serializer_keeps_none_in_dicts_and_lists_witness :
  dict_get
    (asdict_factory
       [ ("source_filters", PList [PStr "tap"; PNone]);
         ("extra", PDict [("a", PNone)]) ]) "extra"
  = Some (PDict [("a", PNone)]) /\
  exists l', convert_value (PList [PStr "tap"; PNone]) = PList l' /\
             List.length l' = 2%nat /\ nth_error l' 1 = Some PNone.
Proof.
  split.
  - apply (proj1 (proj2 serializer_keeps_none_in_dicts_and_lists)).
    + apply distinct_NoDup. reflexivity.
    + right. left. reflexivity.
  - apply (proj2 (proj2 serializer_keeps_none_in_dicts_and_lists)
             [PStr "tap"; PNone] 1%nat eq_refl).
Defined.

(* ================================================================= *)
(** ** More on the endpoint methods *)

(** X19.  The query of [get_workflows]: [enabled] is sent whenever it is
    not [None], [False] included, as the lower-case text [true] or [false];
    [type] is sent only for a non-empty string; there is no other key. *)
Theorem get_workflows_query (enabled : option bool)
    (workflow_type : option string) :
  let params := get_workflows_params enabled workflow_type in
  dict_get params "enabled" =
    match enabled with
    | Some true => Some (PStr "true")
    | Some false => Some (PStr "false")
    | None => None
    end /\
  dict_get params "type" =
    match workflow_type with
    | Some s => if String.eqb s "" then None else Some (PStr s)
    | None => None
    end /\
  (forall k, In k (keys params) -> k = "enabled" \/ k = "type") /\
  get_workflows_params enabled (Some "") = get_workflows_params enabled None.
Proof.
  intro params. subst params.
  destruct enabled as [[|]|], workflow_type as [[|a s]|];
    repeat split; try reflexivity; simpl; intuition.
Qed.

(** X20.  The paging payloads: [startRow] and [endRow] are always there
    with the values given; [sortParams] is there exactly for a non-empty
    list, as the list of the [colId] / [sort] dicts of its elements in order,
    so an empty list gives the payload of no list at all; there is no key
    besides these and [filters]; and the payload of
    [get_incident_with_message_details] is the one of a search without
    filters. *)
Theorem sort_params_are_optional (filters : option Filters)
    (start_row end_row : Z) (sort_params : option (list SortParam)) :
  let payload := search_payload filters start_row end_row sort_params in
  dict_get payload "startRow" = Some (PInt start_row) /\
  dict_get payload "endRow" = Some (PInt end_row) /\
  dict_get payload "sortParams" =
    match sort_params with
    | Some (p :: l) =>
        Some (PList (map (fun p => PDict [ ("colId", PStr (colId p));
                                           ("sort", PStr (sort p)) ])
                         (p :: l)))
    | _ => None
    end /\
  (forall k, In k (keys payload) ->
     k = "startRow" \/ k = "endRow" \/ k = "filters" \/ k = "sortParams") /\
  search_payload filters start_row end_row (Some [])
    = search_payload filters start_row end_row None /\
  incident_messages_payload start_row end_row sort_params
    = search_payload None start_row end_row sort_params.
Proof.
  intro payload. subst payload. unfold search_payload.
  destruct filters as [f|];
    [replace (truthy (py_Filters f)) with true by now destruct f|];
    destruct sort_params as [[|p l]|];
    repeat split; try reflexivity; simpl; intuition.
Qed.

(** X21.  Every public method is one pass through the dispatcher, so what
    holds of [dispatch] holds of each of them.  The path of each starts with
    [/api/v1/tric/]; a [GET] carries no JSON body, a [POST] carries a JSON
    object and no query; and [download_message_mime] is the only method that
    asks for the raw body. *)
Theorem every_method_is_one_dispatch (c : ApiCall) :
  exists r,
    perform c = dispatch r /\
    prefix "/api/v1/tric/" (endpoint r) = true /\
    ((method r = "GET" /\ kw_json (request_kwargs r) = None) \/
     (method r = "POST" /\ kw_params (request_kwargs r) = None /\
      exists payload, kw_json (request_kwargs r) = Some (PDict payload))) /\
    (return_json r = false <-> exists id, c = DownloadMessageMime id).
Proof.
  destruct c;
    match goal with
    | |- exists r, ?f = _ /\ _ =>
        let g := eval cbv beta iota delta
                   [perform get_workflows run_workflow get_workflow_run_status
                    search_incidents get_incident_count get_incident_details
                    get_incident_with_message_details create_incident
                    upload_message search_messages get_message_details
                    fetch_message_body get_message_fetch_status
                    download_message_mime] in f in
        match g with
        | _request ?m ?e ?j ?k =>
            exists {| method := m; endpoint := e; return_json := j;
                      request_kwargs := k |}
        end
    end;
    (split; [reflexivity|]); (split; [reflexivity|]);
    (split; [first [left; split; reflexivity
                   |right; split;
                    [reflexivity|split; [reflexivity|eexists; reflexivity]]]
            |]);
    simpl;
    (split;
     [ intro H; first [discriminate H | eexists; reflexivity]
     | intros [id H]; first [discriminate H | reflexivity] ]).
Qed.

(* ================================================================= *)
(** ** Reuse of a token *)

Lemma run_calls_fresh_requests (calls : list (Request * World)) self expiry :
  holding_until expiry self -> all_before expiry calls ->
  snd (run_calls calls self) =
  map (fun cw => api_request (fst cw) self) calls.
Proof.
  intros Hhold Hall. induction Hall as [|[c w] t Hlt _ IH]; [reflexivity|].
  simpl in *. unfold dispatch at 1 2.
  rewrite _request_state, _request_steps.
  rewrite (_ensure_valid_token_fresh w self expiry Hhold Hlt).
  unfold state_of, events_of. simpl. now rewrite IH.
Qed.

(** X22.  A token is reused for its whole declared lifetime less five
    minutes, whatever that lifetime is: after a refresh that returned at
    [utcnow] with a non-empty token and [expires_in = n], the calls made
    before [utcnow + (n - 300)] seconds make no token request, leave the
    client as it is, and send one API request each, in order, all with that
    token. *)
Theorem token_is_reused_until_expiry response utcnow self self' evs u
    token_data n (calls : list (Request * World)) :
  _refresh_token (requests.Responded response) utcnow self
    = (self', evs, inr u) ->
  requests.json response = inr (PDict token_data) ->
  dict_get_default token_data "expires_in" (PInt 3600) = PInt n ->
  truthy (_access_token self') = true ->
  all_before (utcnow + seconds (n - 300)) calls ->
  fst (run_calls calls self') = self' /\
  snd (run_calls calls self') =
    map (fun cw => api_request (fst cw) self') calls /\
  token_posts (snd (run_calls calls self')) = 0%nat /\
  api_requests (snd (run_calls calls self')) = List.length calls.
Proof.
  intros Href Hj He Htok Hall.
  assert (Hhold : holding_until (utcnow + seconds (n - 300)) self').
  { split; [exact Htok|].
    apply _refresh_token_returns in Href
      as (d & tok & secs & _ & Hd & _ & Hsub & ->).
    rewrite Hj in Hd. inversion Hd; subst d.
    rewrite He in Hsub. simpl in Hsub. inversion Hsub; subst secs.
    reflexivity. }
  destruct (run_calls_fresh calls self' _ Hhold Hall) as [Hst Hp].
  pose proof (run_calls_fresh_requests calls self' _ Hhold Hall) as Hev.
  repeat split; try assumption.
  rewrite Hev. unfold api_requests, request_bodies, api_request.
  clear. induction calls as [|cw t IH]; simpl; [reflexivity|].
  now rewrite IH.
Qed.

Lemma token_is_reused_until_expiry_witness :
  fst (run_calls [(Demo.get "/api/v1/tric/workflows", Demo.ok_world 59)]
         (set_token_expiry (Some (Demo.t0 + seconds (360 - 300)))
            (set_access_token (PStr "tok") Demo.blank))) =
  set_token_expiry (Some (Demo.t0 + seconds (360 - 300)))
    (set_access_token (PStr "tok") Demo.blank).
Proof.
  apply (token_is_reused_until_expiry Demo.brief_document Demo.t0 Demo.blank
           _ [TokenPost default_token_url (token_form Demo.blank)] tt
           [("access_token", PStr "tok"); ("expires_in", PInt 360)] 360
           [(Demo.get "/api/v1/tric/workflows", Demo.ok_world 59)]);
    try reflexivity.
  repeat apply Forall_cons; try apply Forall_nil. vm_compute. reflexivity.
Defined.
